(** * Attendance marking and QR tokens of the student backend

    A shallow embedding of the attendance handlers
    ([routers/attendance/attendance.py], [routers/qrcode/qrcode.py],
    [routers/student/student.py]), of the helpers they call
    ([utils/helpers.py]) and of the tables they read and write
    ([models/database_models.py]).

    Python [int] is [Z]; [str] is [string]; a table is the list of its
    rows in insertion order; a handler is a computation over the
    database that either raises or returns. *)

From Stdlib Require Import ZArith List String Ascii Bool Lia.
From Stdlib Require Import DecimalString DecimalZ.
Import ListNotations.
Local Open Scope string_scope.
Local Open Scope Z_scope.

(** ** Exceptions *)

(** What a handler can raise.  [HTTPException] is FastAPI's; the others
    are the Python and SQLAlchemy errors reachable from the modelled
    code.  [main.py] turns an [HTTPException] into a response with its
    own status code and every other exception into a 500. *)
Inductive exn : Type :=
| HTTPException (status_code : Z) (detail : string)
| AttributeError (attr : string)
| NameError (name : string)
| TypeError
| MultipleResultsFound
| IntegrityError.

(** [http_exception_handler] and [general_exception_handler] of [main.py]:
    the status code and the detail of the JSON body. *)
Definition exception_response (e : exn) : Z * string :=
  match e with
  | HTTPException status_code detail => (status_code, detail)
  | _ => (500, "Internal server error")
  end.

(** ** utils/helpers.py *)

(** [f"{n}"] for an [int]: decimal digits, a leading [-] when negative. *)
Definition str_int (n : Z) : string := NilZero.string_of_int (Z.to_int n).

(** [s.split(sep)] for a one-character separator: always at least one
    part, one more than the number of separators. *)
Fixpoint split (sep : ascii) (s : string) : list string :=
  match s with
  | EmptyString => [EmptyString]
  | String c r =>
      if Ascii.eqb c sep then EmptyString :: split sep r
      else match split sep r with
           | h :: t => String c h :: t
           | [] => [String c EmptyString]
           end
  end.

(** The characters [int()] and [str.strip()] treat as whitespace, among
    the code points below 256: tab to carriage return, the four
    separators 28 to 31, the space, NEL and the no-break space. *)
Definition is_space (c : ascii) : bool :=
  let n := nat_of_ascii c in
  (Nat.eqb n 32 || (Nat.leb 9 n && Nat.leb n 13)
   || (Nat.leb 28 n && Nat.leb n 31) || Nat.eqb n 133 || Nat.eqb n 160)%bool.

Fixpoint lstrip (s : string) : string :=
  match s with
  | String c r => if is_space c then lstrip r else s
  | EmptyString => EmptyString
  end.

Fixpoint rstrip (s : string) : string :=
  match s with
  | EmptyString => EmptyString
  | String c r =>
      match rstrip r with
      | EmptyString => if is_space c then EmptyString else String c EmptyString
      | r' => String c r'
      end
  end.

Definition strip (s : string) : string := rstrip (lstrip s).

Definition digit_of_char (c : ascii) : option (Decimal.uint -> Decimal.uint) :=
  match c with
  | "0"%char => Some Decimal.D0 | "1"%char => Some Decimal.D1
  | "2"%char => Some Decimal.D2 | "3"%char => Some Decimal.D3
  | "4"%char => Some Decimal.D4 | "5"%char => Some Decimal.D5
  | "6"%char => Some Decimal.D6 | "7"%char => Some Decimal.D7
  | "8"%char => Some Decimal.D8 | "9"%char => Some Decimal.D9
  | _ => None
  end.

(** The digit part of an [int()] literal: at least one digit, single
    underscores allowed between digits only. *)
Fixpoint int_digits (after_digit : bool) (s : string) : option Decimal.uint :=
  match s with
  | EmptyString => if after_digit then Some Decimal.Nil else None
  | String c r =>
      if Ascii.eqb c "_" then
        if after_digit then int_digits false r else None
      else match digit_of_char c with
           | Some d => option_map d (int_digits true r)
           | None => None
           end
  end.

(** [int(s)] on a [str], base 10, for ASCII input: surrounding
    whitespace is dropped, one optional sign, then the digits.  [None]
    stands for the [ValueError] Python raises. *)
Definition int_of_str (s : string) : option Z :=
  match strip s with
  | String "-" r => option_map (fun u => - Z.of_uint u) (int_digits false r)
  | String "+" r => option_map Z.of_uint (int_digits false r)
  | r => option_map Z.of_uint (int_digits false r)
  end.

(** [QRCodeData] of [models/pydantic_models.py]; it is also the dict
    [generate_qr_code] and [parse_qr_data] work with. *)
Module QRCodeData.
Record t : Type := make
  { dia_aula_id : string; timestamp : Z; action : string }.
(** the default of the [action] field *)
Definition default_action : string := "marcar_presenca".
End QRCodeData.

(** First statement of [generate_qr_code]: the string the QR image
    carries. *)
Definition qr_string (data : QRCodeData.t) : string :=
  QRCodeData.dia_aula_id data ++ "|" ++ str_int (QRCodeData.timestamp data)
    ++ "|" ++ QRCodeData.action data.

(** The two ways [parse_qr_data] ends in [ValueError]. *)
Inductive ValueError : Type :=
| Invalid_QR_code_format        (* len(parts) != 3 *)
| Invalid_literal_for_int.      (* int(parts[1]) *)

Definition parse_qr_data (qr_string : string) : ValueError + QRCodeData.t :=
  match split "|" qr_string with
  | [p0; p1; p2] =>
      match int_of_str p1 with
      | Some n => inr (QRCodeData.make p0 n p2)
      | None => inl Invalid_literal_for_int
      end
  | _ => inl Invalid_QR_code_format
  end.

(** [validate_qr_timestamp]; [current_time] is the value of
    [int(time.time())] read by the body. *)
Definition validate_qr_timestamp
    (current_time : Z) (timestamp : Z) (max_age_minutes : Z) : bool :=
  let max_age_seconds := max_age_minutes * 60 in
  (current_time - timestamp) <=? max_age_seconds.

(** the default of [max_age_minutes] *)
Definition default_max_age_minutes : Z := 30.

(** ** models/database_models.py: the tables the handlers use *)

(** A [DateTime] column, as seconds since the epoch. *)
Definition datetime : Type := Z.

Module DiaDeAula.
Record t : Type := make
  { id : string;
    turma_id : string;
    data : datetime;
    aula_foi_dada : bool;
    professor_id : string }.
End DiaDeAula.

Module IntegranteDaTurma.
(** [professor_id] and [aluno_id] are nullable. *)
Record t : Type := make
  { id : Z;
    turma_id : string;
    professor_id : option string;
    aluno_id : option string;
    tipo : string }.
End IntegranteDaTurma.

Module Presenca.
Record t : Type := make
  { id : string;
    aluno_id : string;
    dia_aula_id : string;
    timestamp : datetime }.
End Presenca.

Module Aluno.
Record t : Type := make
  { id : string; email : string; matricula : string; name : option string }.
End Aluno.

Module Professor.
Record t : Type := make
  { id : string; email : string; name : string }.
End Professor.

Module Turma.
Record t : Type := make
  { id : string; nome_turma : string; disciplina_id : string }.
End Turma.

(** The database: one list of rows per [__tablename__]. *)
Record Db : Type := mkDb
  { turma : list Turma.t;
    dia_de_aula : list DiaDeAula.t;
    integrante_da_turma : list IntegranteDaTurma.t;
    presenca : list Presenca.t }.

(** [column == value] in a [where] clause; a NULL column matches
    nothing. *)
Definition col_eq (column : option string) (value : string) : bool :=
  match column with
  | Some v => String.eqb v value
  | None => false
  end.

(** [UniqueConstraint("aluno_id", "dia_aula_id")] of [Presenca]: the rows
    a new row would clash with. *)
Definition same_aluno_dia_aula (aluno_id dia_aula_id : string) (p : Presenca.t) : bool :=
  (String.eqb (Presenca.aluno_id p) aluno_id
   && String.eqb (Presenca.dia_aula_id p) dia_aula_id)%bool.

(** ** Handlers as computations over the database *)

Definition M (A : Type) : Type := Db -> (exn + A) * Db.

Definition ret {A} (a : A) : M A := fun db => (inr a, db).
Definition raise {A} (e : exn) : M A := fun db => (inl e, db).
Definition bind {A B} (m : M A) (k : A -> M B) : M B :=
  fun db =>
    match m db with
    | (inr a, db') => k a db'
    | (inl e, db') => (inl e, db')
    end.

Declare Scope py_scope.
Delimit Scope py_scope with py.
Notation "x <- m ;; k" := (bind m (fun x => k))
  (at level 61, m at next level, right associativity) : py_scope.
Notation "m ;;; k" := (bind m (fun _ => k))
  (at level 61, right associativity) : py_scope.

(** [db.execute(select(T).where(p))]: the matching rows, in table order. *)
Definition select {T} (table : Db -> list T) (where_ : T -> bool) : M (list T) :=
  fun db => (inr (filter where_ (table db)), db).

(** [Result.scalar_one_or_none()]: raises when more than one row matches. *)
Definition scalar_one_or_none {T} (rows : list T) : M (option T) :=
  match rows with
  | [] => ret None
  | [r] => ret (Some r)
  | _ => raise MultipleResultsFound
  end.

(** [Result.scalar_one()] on a [select(func.count(...))]: the number of
    matching rows. *)
Definition count {T} (rows : list T) : Z := Z.of_nat (List.length rows).

(** [db.add(p); await db.commit()] for a [Presenca]: the insert is
    refused, and nothing is stored, when the primary key or the
    [unique_aluno_dia_aula] constraint of the table would be broken. *)
Definition add_commit (p : Presenca.t) : M unit :=
  fun db =>
    if (existsb (fun q => String.eqb (Presenca.id q) (Presenca.id p)) (presenca db)
        || existsb (same_aluno_dia_aula (Presenca.aluno_id p) (Presenca.dia_aula_id p))
             (presenca db))%bool
    then (inl IntegrityError, db)
    else (inr tt,
          mkDb (turma db) (dia_de_aula db) (integrante_da_turma db)
               (presenca db ++ [p])).

(** [CheckConstraint "check_integrante_logic"] of [IntegranteDaTurma]
    (it implies [check_tipo]). *)
Definition check_integrante_logic (i : IntegranteDaTurma.t) : bool :=
  match IntegranteDaTurma.professor_id i, IntegranteDaTurma.aluno_id i with
  | Some _, None => String.eqb (IntegranteDaTurma.tipo i) "professor"
  | None, Some _ => String.eqb (IntegranteDaTurma.tipo i) "aluno"
  | _, _ => false
  end.

(** The rows an [IntegranteDaTurma] would clash with under
    [unique_turma_professor] or [unique_turma_aluno]: same class and the
    same non-NULL professor, or the same non-NULL student. *)
Definition same_turma_member (i r : IntegranteDaTurma.t) : bool :=
  (String.eqb (IntegranteDaTurma.turma_id r) (IntegranteDaTurma.turma_id i)
   && (match IntegranteDaTurma.professor_id i with
       | Some p => col_eq (IntegranteDaTurma.professor_id r) p
       | None => false
       end
       || match IntegranteDaTurma.aluno_id i with
          | Some a => col_eq (IntegranteDaTurma.aluno_id r) a
          | None => false
          end))%bool.

(** [db.add(i); await db.commit()] for an [IntegranteDaTurma]: refused
    when the primary key, a unique constraint, the check constraint or
    the foreign key to [turma] would be broken.  (The foreign keys to
    [professor] and [aluno] point at the authenticated caller.) *)
Definition add_commit_integrante (i : IntegranteDaTurma.t) : M unit :=
  fun db =>
    if (existsb (fun r => Z.eqb (IntegranteDaTurma.id r) (IntegranteDaTurma.id i))
          (integrante_da_turma db)
        || existsb (same_turma_member i) (integrante_da_turma db)
        || negb (check_integrante_logic i)
        || negb (existsb (fun t => String.eqb (Turma.id t) (IntegranteDaTurma.turma_id i))
                   (turma db)))%bool
    then (inl IntegrityError, db)
    else (inr tt,
          mkDb (turma db) (dia_de_aula db) (integrante_da_turma db ++ [i])
               (presenca db)).

(** [await db.delete(i); await db.commit()] for an [IntegranteDaTurma]:
    the row with that primary key goes. *)
Definition delete_commit_integrante (i : IntegranteDaTurma.t) : M unit :=
  fun db =>
    (inr tt,
     mkDb (turma db) (dia_de_aula db)
          (filter (fun r => negb (Z.eqb (IntegranteDaTurma.id r) (IntegranteDaTurma.id i)))
                  (integrante_da_turma db))
          (presenca db)).

(** [dia_aula.aula_foi_dada = True; await db.commit()]: the row with
    that primary key is updated. *)
Definition set_aula_foi_dada (d : DiaDeAula.t) : M unit :=
  fun db =>
    (inr tt,
     mkDb (turma db)
          (map (fun r =>
                  if String.eqb (DiaDeAula.id r) (DiaDeAula.id d) then
                    DiaDeAula.make (DiaDeAula.id r) (DiaDeAula.turma_id r)
                      (DiaDeAula.data r) true (DiaDeAula.professor_id r)
                  else r)
               (dia_de_aula db))
          (integrante_da_turma db) (presenca db)).

(** [x NOT IN (subquery)] for a non-NULL [x], in SQL's three-valued
    logic: false when a member equals [x], otherwise unknown ([None])
    when a member is NULL, otherwise true. *)
Definition sql_not_in (x : string) (members : list (option string)) : option bool :=
  if existsb (fun m => col_eq m x) members then Some false
  else if existsb (fun m => match m with None => true | Some _ => false end) members
       then None
       else Some true.

(** A [where] clause keeps the rows on which it is true. *)
Definition is_true (v : option bool) : bool :=
  match v with Some true => true | _ => false end.

(** ** models/pydantic_models.py: request and response bodies *)

Module AttendanceRequest.
Record t : Type := make { dia_aula_id : string; action : string }.

(** A Python value read off a model instance. *)
Inductive value : Type := Str (s : string) | Int (n : Z).

(** Attribute access on an instance: the model declares only
    [dia_aula_id] and [action]. *)
Definition getattr (r : t) (attr : string) : M value :=
  if String.eqb attr "dia_aula_id" then ret (Str (dia_aula_id r))
  else if String.eqb attr "action" then ret (Str (action r))
  else raise (AttributeError attr).

(** Validation of a request body that carries the three fields of a
    scanned QR code: a field the model does not declare is dropped. *)
Definition of_body (body : QRCodeData.t) : t :=
  make (QRCodeData.dia_aula_id body) (QRCodeData.action body).
End AttendanceRequest.

Module AttendanceResponse.
Record t : Type := make
  { id : string;
    aluno_id : string;
    dia_aula_id : string;
    timestamp : datetime;
    student_name : option string;
    turma_nome : option string }.

Definition from_orm (p : Presenca.t) : t :=
  make (Presenca.id p) (Presenca.aluno_id p) (Presenca.dia_aula_id p)
       (Presenca.timestamp p) None None.
End AttendanceResponse.

Module QRCodeResponse.
Record t : Type := make
  { qr_data : QRCodeData.t; qr_code_base64 : option string }.
End QRCodeResponse.

Module StudentInfo.
Record t : Type := make
  { id : string; email : string; matricula : string; name : option string }.

Definition from_orm (a : Aluno.t) : t :=
  make (Aluno.id a) (Aluno.email a) (Aluno.matricula a) (Aluno.name a).
End StudentInfo.

Module SuccessResponse.
(** A value of the [data] dict. *)
Inductive any : Type := Str (s : string) | DateTime (d : datetime).

Record t : Type := make
  { message : string; data : option (list (string * any)) }.
End SuccessResponse.

(** What one request brings besides its body: the result of
    [generate_uuid()] and the clock ([datetime.utcnow()] and
    [int(time.time())], both in epoch seconds). *)
Record Env : Type := mkEnv { uuid4 : string; now : Z }.

(** ** routers/attendance/attendance.py *)

Module attendance.

(** The names bound at module level: the imports, [router] and the
    three handlers. *)
Definition globals : list string :=
  [ "APIRouter"; "Depends"; "HTTPException"; "status"; "AsyncSession";
    "select"; "and_"; "List"; "get_db"; "Presenca"; "DiaDeAula"; "Aluno";
    "AttendanceRequest"; "AttendanceResponse"; "StudentInfo";
    "get_current_student"; "generate_uuid"; "validate_qr_timestamp";
    "datetime"; "IntegranteDaTurma"; "router"; "mark_attendance";
    "get_attendance_count"; "get_attendance_list" ].

(** Looking a global name up when the body runs. *)
Definition global (name : string) : M unit :=
  if existsb (String.eqb name) globals then ret tt else raise (NameError name).

Definition mark_attendance
    (data : AttendanceRequest.t) (student : Aluno.t) (env : Env)
  : M AttendanceResponse.t :=
  (if negb (String.eqb (AttendanceRequest.action data) "marcar_presenca") then
     raise (HTTPException 400 "Invalid QR code action")
   else
     dia_aula_result <- select dia_de_aula
       (fun d => String.eqb (DiaDeAula.id d) (AttendanceRequest.dia_aula_id data)) ;;
     dia_aula <- scalar_one_or_none dia_aula_result ;;
     match dia_aula with
     | None => raise (HTTPException 404 "Class session not found")
     | Some dia_aula =>
         enrollment_result <- select integrante_da_turma
           (fun i =>
              String.eqb (IntegranteDaTurma.turma_id i) (DiaDeAula.turma_id dia_aula)
              && col_eq (IntegranteDaTurma.aluno_id i) (Aluno.id student)
              && String.eqb (IntegranteDaTurma.tipo i) "aluno")%bool ;;
         enrollment <- scalar_one_or_none enrollment_result ;;
         match enrollment with
         | None => raise (HTTPException 403 "You are not enrolled in this class")
         | Some _ =>
             existing_attendance_result <- select presenca
               (same_aluno_dia_aula (Aluno.id student)
                  (AttendanceRequest.dia_aula_id data)) ;;
             existing <- scalar_one_or_none existing_attendance_result ;;
             match existing with
             | Some _ =>
                 raise (HTTPException 409
                          "Attendance already marked for this class session")
             | None =>
                 let attendance_id := uuid4 env in
                 let new_attendance :=
                   Presenca.make attendance_id (Aluno.id student)
                     (AttendanceRequest.dia_aula_id data) (now env) in
                 add_commit new_attendance ;;;
                 ret (AttendanceResponse.from_orm new_attendance)
             end
         end
     end)%py.

Definition get_attendance_count (day_id : string) : M Z :=
  (global "func" ;;;
   attendance_count_result <- select presenca
     (fun p => String.eqb (Presenca.dia_aula_id p) day_id) ;;
   ret (count attendance_count_result))%py.

(** The loop of [get_attendance_list]: one lookup per attendance row;
    a row whose student is not found is skipped. *)
Fixpoint students_of (aluno_table : list Aluno.t) (presencas : list Presenca.t)
  : M (list StudentInfo.t) :=
  match presencas with
  | [] => ret []
  | presenca :: rest =>
      (aluno <- scalar_one_or_none
                  (filter (fun a => String.eqb (Aluno.id a) (Presenca.aluno_id presenca))
                          aluno_table) ;;
       students <- students_of aluno_table rest ;;
       ret (match aluno with
            | Some a => StudentInfo.from_orm a :: students
            | None => students
            end))%py
  end.

(** [aluno_table] is the [aluno] table, which none of the handlers
    modelled here writes. *)
Definition get_attendance_list (aluno_table : list Aluno.t) (day_id : string)
  : M (list StudentInfo.t) :=
  (presencas <- select presenca
     (fun p => String.eqb (Presenca.dia_aula_id p) day_id) ;;
   students_of aluno_table presencas)%py.

End attendance.

(** ** utils/helpers.py, continued *)

(** [generate_qr_code]: [qrcode_png_base64] stands for the [qrcode] and
    [base64] libraries, which draw the string as a QR image and encode
    the PNG file. *)
Definition generate_qr_code
    (qrcode_png_base64 : string -> string) (data : QRCodeData.t) : string :=
  "data:image/png;base64," ++ qrcode_png_base64 (qr_string data).

(** ** routers/qrcode/qrcode.py *)

Module qrcode.

Definition generate_qrcode
    (qrcode_png_base64 : string -> string)
    (data : QRCodeData.t) (professor : Professor.t) (env : Env)
  : M QRCodeResponse.t :=
  (day_result <- select dia_de_aula
     (fun d =>
        String.eqb (DiaDeAula.id d) (QRCodeData.dia_aula_id data)
        && String.eqb (DiaDeAula.professor_id d) (Professor.id professor))%bool ;;
   day <- scalar_one_or_none day_result ;;
   match day with
   | None => raise (HTTPException 404 "Class day not found or access denied")
   | Some _ =>
       let qr_data :=
         QRCodeData.make (QRCodeData.dia_aula_id data) (now env) "marcar_presenca" in
       let qr_code_base64 := generate_qr_code qrcode_png_base64 qr_data in
       ret (QRCodeResponse.make qr_data (Some qr_code_base64))
   end)%py.

Definition scan_qrcode
    (data : AttendanceRequest.t) (student : Aluno.t) (env : Env)
  : M AttendanceResponse.t :=
  attendance.mark_attendance data student env.

End qrcode.

(** ** routers/student/student.py *)

Module student.

Definition mark_attendance
    (attendance_data : AttendanceRequest.t) (student : Aluno.t) (env : Env)
  : M AttendanceResponse.t :=
  (timestamp <- AttendanceRequest.getattr attendance_data "timestamp" ;;
   fresh <- match timestamp with
            | AttendanceRequest.Int t =>
                ret (validate_qr_timestamp (now env) t 30)
            | AttendanceRequest.Str _ => raise TypeError
            end ;;
   if negb fresh then raise (HTTPException 400 "QR code has expired")
   else if negb (String.eqb (AttendanceRequest.action attendance_data)
                   "marcar_presenca") then
     raise (HTTPException 400 "Invalid QR code action")
   else
     dia_aula_result <- select dia_de_aula
       (fun d => String.eqb (DiaDeAula.id d)
                   (AttendanceRequest.dia_aula_id attendance_data)) ;;
     dia_aula <- scalar_one_or_none dia_aula_result ;;
     match dia_aula with
     | None => raise (HTTPException 404 "Class session not found")
     | Some dia_aula =>
         enrollment_result <- select integrante_da_turma
           (fun i =>
              String.eqb (IntegranteDaTurma.turma_id i) (DiaDeAula.turma_id dia_aula)
              && col_eq (IntegranteDaTurma.aluno_id i) (Aluno.id student)
              && String.eqb (IntegranteDaTurma.tipo i) "aluno")%bool ;;
         enrollment <- scalar_one_or_none enrollment_result ;;
         match enrollment with
         | None => raise (HTTPException 403 "You are not enrolled in this class")
         | Some _ =>
             existing_attendance_result <- select presenca
               (same_aluno_dia_aula (Aluno.id student)
                  (AttendanceRequest.dia_aula_id attendance_data)) ;;
             existing <- scalar_one_or_none existing_attendance_result ;;
             match existing with
             | Some _ =>
                 raise (HTTPException 409
                          "Attendance already marked for this class session")
             | None =>
                 let attendance_id := uuid4 env in
                 let new_attendance :=
                   Presenca.make attendance_id (Aluno.id student)
                     (AttendanceRequest.dia_aula_id attendance_data) (now env) in
                 add_commit new_attendance ;;;
                 let response := AttendanceResponse.from_orm new_attendance in
                 (* dia_aula.turma, loaded with the session *)
                 turma_result <- select turma
                   (fun t => String.eqb (Turma.id t) (DiaDeAula.turma_id dia_aula)) ;;
                 match turma_result with
                 | t :: _ =>
                     ret (AttendanceResponse.make
                            (AttendanceResponse.id response)
                            (AttendanceResponse.aluno_id response)
                            (AttendanceResponse.dia_aula_id response)
                            (AttendanceResponse.timestamp response)
                            (Aluno.name student)
                            (Some (Turma.nome_turma t)))
                 | [] => raise (AttributeError "nome_turma")
                 end
             end
         end
     end)%py.

Definition check_attendance (dia_aula_id : string) (student : Aluno.t)
  : M SuccessResponse.t :=
  (attendance_result <- select presenca
     (same_aluno_dia_aula (Aluno.id student) dia_aula_id) ;;
   attendance_exists <- scalar_one_or_none attendance_result ;;
   match attendance_exists with
   | None =>
       ret (SuccessResponse.make
              ("No attendance record found for class session " ++ dia_aula_id ++ ".")
              None)
   | Some attendance =>
       ret (SuccessResponse.make
              ("Attendance confirmed for class session " ++ dia_aula_id ++ ".")
              (Some [("dia_aula_id", SuccessResponse.Str dia_aula_id);
                     ("timestamp",
                      SuccessResponse.DateTime (Presenca.timestamp attendance))]))
   end)%py.

(** [new_id] is the value the database gives the autoincrement [id] of
    the new row. *)
Definition join_turma (turma_id : string) (student : Aluno.t) (new_id : Z)
  : M SuccessResponse.t :=
  (turma_result <- select turma (fun t => String.eqb (Turma.id t) turma_id) ;;
   turma <- scalar_one_or_none turma_result ;;
   match turma with
   | None => raise (HTTPException 404 "Class not found")
   | Some turma =>
       existing_result <- select integrante_da_turma
         (fun i =>
            String.eqb (IntegranteDaTurma.turma_id i) turma_id
            && col_eq (IntegranteDaTurma.aluno_id i) (Aluno.id student)
            && String.eqb (IntegranteDaTurma.tipo i) "aluno")%bool ;;
       existing <- scalar_one_or_none existing_result ;;
       match existing with
       | Some _ => raise (HTTPException 409 "Already enrolled in this class")
       | None =>
           let enrollment :=
             IntegranteDaTurma.make new_id turma_id None (Some (Aluno.id student))
               "aluno" in
           add_commit_integrante enrollment ;;;
           ret (SuccessResponse.make "Successfully joined the class"
                  (Some [("turma_id", SuccessResponse.Str turma_id);
                         ("turma_nome", SuccessResponse.Str (Turma.nome_turma turma))]))
       end
   end)%py.

End student.

(** ** routers/professor/classes.py *)

Module classes.

(** The ownership check every handler of the file starts with. *)
Definition owner_check (class_id : string) (professor : Professor.t) : M unit :=
  (owner_result <- select integrante_da_turma
     (fun i =>
        String.eqb (IntegranteDaTurma.turma_id i) class_id
        && col_eq (IntegranteDaTurma.professor_id i) (Professor.id professor)
        && String.eqb (IntegranteDaTurma.tipo i) "professor")%bool ;;
   owner <- scalar_one_or_none owner_result ;;
   match owner with
   | None => raise (HTTPException 403 "You do not own this class")
   | Some _ => ret tt
   end)%py.

Definition generate_qrcode
    (qrcode_png_base64 : string -> string)
    (class_id day_id : string) (professor : Professor.t) (env : Env)
  : M QRCodeResponse.t :=
  (owner_check class_id professor ;;;
   day_result <- select dia_de_aula
     (fun d => String.eqb (DiaDeAula.id d) day_id
               && String.eqb (DiaDeAula.turma_id d) class_id)%bool ;;
   day <- scalar_one_or_none day_result ;;
   match day with
   | None => raise (HTTPException 404 "Class day not found")
   | Some _ =>
       let qr_data := QRCodeData.make day_id (now env) "marcar_presenca" in
       let qr_code_base64 := generate_qr_code qrcode_png_base64 qr_data in
       ret (QRCodeResponse.make qr_data (Some qr_code_base64))
   end)%py.

Definition list_students_not_in_class
    (aluno_table : list Aluno.t) (class_id : string) (professor : Professor.t)
  : M (list StudentInfo.t) :=
  (owner_check class_id professor ;;;
   subquery <- select integrante_da_turma
     (fun i => String.eqb (IntegranteDaTurma.turma_id i) class_id) ;;
   let members := map IntegranteDaTurma.aluno_id subquery in
   let not_enrolled_students :=
     filter (fun a => is_true (sql_not_in (Aluno.id a) members)) aluno_table in
   ret (map StudentInfo.from_orm not_enrolled_students))%py.

Definition remove_student_from_class
    (class_id student_id : string) (professor : Professor.t) : M string :=
  (owner_check class_id professor ;;;
   delete_result <- select integrante_da_turma
     (fun i =>
        String.eqb (IntegranteDaTurma.turma_id i) class_id
        && col_eq (IntegranteDaTurma.aluno_id i) student_id
        && String.eqb (IntegranteDaTurma.tipo i) "aluno")%bool ;;
   integrante <- scalar_one_or_none delete_result ;;
   match integrante with
   | None => raise (HTTPException 404 "Student not enrolled in this class")
   | Some integrante =>
       delete_commit_integrante integrante ;;;
       ret "Student removed from class"
   end)%py.

End classes.

(** ** routers/professor/professor.py *)

Module professor.

Definition get_qr_code
    (qrcode_png_base64 : string -> string)
    (dia_aula_id : string) (professor : Professor.t) (env : Env)
  : M QRCodeResponse.t :=
  (result <- select dia_de_aula
     (fun d => String.eqb (DiaDeAula.id d) dia_aula_id
               && String.eqb (DiaDeAula.professor_id d) (Professor.id professor))%bool ;;
   dia_aula <- scalar_one_or_none result ;;
   match dia_aula with
   | None => raise (HTTPException 404 "Class session not found or access denied")
   | Some _ =>
       let qr_data := QRCodeData.make dia_aula_id (now env) "marcar_presenca" in
       let qr_code_base64 := generate_qr_code qrcode_png_base64 qr_data in
       ret (QRCodeResponse.make qr_data (Some qr_code_base64))
   end)%py.

Definition finish_aula (dia_aula_id : string) (professor : Professor.t)
  : M SuccessResponse.t :=
  (result <- select dia_de_aula
     (fun d => String.eqb (DiaDeAula.id d) dia_aula_id
               && String.eqb (DiaDeAula.professor_id d) (Professor.id professor))%bool ;;
   dia_aula <- scalar_one_or_none result ;;
   match dia_aula with
   | None => raise (HTTPException 404 "Class session not found or access denied")
   | Some dia_aula =>
       set_aula_foi_dada dia_aula ;;;
       ret (SuccessResponse.make "Class session marked as completed"
              (Some [("dia_aula_id", SuccessResponse.Str dia_aula_id)]))
   end)%py.

End professor.

(** ** Schema constraints and sequences of calls *)

(** The keys of the rows that carry one. *)
Definition keys {T K} (key : T -> option K) (rows : list T) : list K :=
  flat_map (fun r => match key r with Some k => [k] | None => [] end) rows.

(** The primary keys and [UniqueConstraint]s of [dia_de_aula],
    [integrante_da_turma] and [presenca].  A NULL [aluno_id] takes no
    part in [unique_turma_aluno]. *)
Record Db_ok (db : Db) : Prop := mkDb_ok
  { dia_de_aula_pkey : NoDup (map DiaDeAula.id (dia_de_aula db));
    unique_turma_aluno :
      NoDup (keys (fun i => option_map (pair (IntegranteDaTurma.turma_id i))
                              (IntegranteDaTurma.aluno_id i))
                  (integrante_da_turma db));
    presenca_pkey : NoDup (map Presenca.id (presenca db));
    unique_aluno_dia_aula :
      NoDup (map (fun p => (Presenca.aluno_id p, Presenca.dia_aula_id p))
                 (presenca db)) }.

(** The constraints of [turma] and the remaining ones of
    [integrante_da_turma]. *)
Record Schema_ok (db : Db) : Prop := mkSchema_ok
  { turma_pkey : NoDup (map Turma.id (turma db));
    integrante_pkey : NoDup (map IntegranteDaTurma.id (integrante_da_turma db));
    unique_turma_professor :
      NoDup (keys (fun i => option_map (pair (IntegranteDaTurma.turma_id i))
                              (IntegranteDaTurma.professor_id i))
                  (integrante_da_turma db));
    check_integrante :
      Forall (fun i => check_integrante_logic i = true) (integrante_da_turma db) }.

(** A professor owns a class when the class has a membership row of
    type professor for them. *)
Definition owns_class (db : Db) (class_id professor_id : string) : bool :=
  existsb (fun i =>
             String.eqb (IntegranteDaTurma.turma_id i) class_id
             && col_eq (IntegranteDaTurma.professor_id i) professor_id
             && String.eqb (IntegranteDaTurma.tipo i) "professor")%bool
          (integrante_da_turma db).

(** One call of the mark-attendance operation. *)
Record Call : Type := mkCall
  { call_data : AttendanceRequest.t; call_student : Aluno.t; call_env : Env }.

Definition run (c : Call) : M AttendanceResponse.t :=
  attendance.mark_attendance (call_data c) (call_student c) (call_env c).

(** The database after a sequence of calls, each run to its end before
    the next starts. *)
Definition exec (cs : list Call) (db : Db) : Db :=
  fold_left (fun db c => snd (run c db)) cs db.

(** The rejections of the mark-attendance operation, by the names the
    interface gives them. *)
Definition InvalidAction : exn := HTTPException 400 "Invalid QR code action".
Definition TokenExpired : exn := HTTPException 400 "QR code has expired".
Definition SessionNotFound : exn := HTTPException 404 "Class session not found".
Definition NotEnrolled : exn := HTTPException 403 "You are not enrolled in this class".
Definition AlreadyMarked : exn :=
  HTTPException 409 "Attendance already marked for this class session".

(** A rejection is Forbidden when it answers 403, as the ownership
    checks of [routers/professor/classes.py] do. *)
Definition Forbidden (e : exn) : Prop := fst (exception_response e) = 403.

(** Readings of the database used to state what the handlers do. *)
Definition session (db : Db) (dia_aula_id : string) : option DiaDeAula.t :=
  find (fun d => String.eqb (DiaDeAula.id d) dia_aula_id) (dia_de_aula db).

Definition enrolled_as_student (db : Db) (turma_id aluno_id : string) : bool :=
  existsb (fun i =>
             String.eqb (IntegranteDaTurma.turma_id i) turma_id
             && col_eq (IntegranteDaTurma.aluno_id i) aluno_id
             && String.eqb (IntegranteDaTurma.tipo i) "aluno")%bool
          (integrante_da_turma db).

Definition records_of (db : Db) (aluno_id dia_aula_id : string) : list Presenca.t :=
  filter (same_aluno_dia_aula aluno_id dia_aula_id) (presenca db).

Definition records_of_session (db : Db) (dia_aula_id : string) : list Presenca.t :=
  filter (fun p => String.eqb (Presenca.dia_aula_id p) dia_aula_id) (presenca db).

Definition owner_of (db : Db) (dia_aula_id : string) : option string :=
  option_map DiaDeAula.professor_id (session db dia_aula_id).

(** ** A small school: session S1 of class C1, taught by P1; U1 is
    enrolled in C1, U2 is not. *)
Module Scenario.
Definition U1 : Aluno.t := Aluno.make "U1" "u1@student.edu" "2024001" (Some "Ana").
Definition U2 : Aluno.t := Aluno.make "U2" "u2@student.edu" "2024002" (Some "Bruno").
Definition P1 : Professor.t := Professor.make "P1" "p1@university.edu" "Silva".
Definition P2 : Professor.t := Professor.make "P2" "p2@university.edu" "Santos".
Definition db0 : Db :=
  mkDb [Turma.make "C1" "BD-2024-1" "D1"]
       [DiaDeAula.make "S1" "C1" 900 false "P1"]
       [IntegranteDaTurma.make 1 "C1" (Some "P1") None "professor";
        IntegranteDaTurma.make 2 "C1" None (Some "U1") "aluno"]
       [].
Definition scan_S1 : AttendanceRequest.t :=
  AttendanceRequest.make "S1" "marcar_presenca".
Definition render (s : string) : string := s.
End Scenario.

(** ** Character classes of strings *)

Fixpoint all_chars (p : ascii -> bool) (s : string) : bool :=
  match s with
  | EmptyString => true
  | String c r => (p c && all_chars p r)%bool
  end.

Definition is_digit (c : ascii) : bool :=
  match digit_of_char c with Some _ => true | None => false end.

Definition no_pipe (s : string) : bool :=
  all_chars (fun c => negb (Ascii.eqb c "|")) s.

(** The token of a session: the string in the QR code that
    [qrcode.generate_qrcode] answers with for [sessionId] at time [t]. *)
Definition mint (sessionId : string) (t : Z) : string :=
  qr_string (QRCodeData.make sessionId t "marcar_presenca").

(** The row [attendance.mark_attendance] stores for a call. *)
Definition new_attendance
    (data : AttendanceRequest.t) (student : Aluno.t) (env : Env) : Presenca.t :=
  Presenca.make (uuid4 env) (Aluno.id student)
    (AttendanceRequest.dia_aula_id data) (now env).

Definition with_presenca (db : Db) (rows : list Presenca.t) : Db :=
  mkDb (turma db) (dia_de_aula db) (integrante_da_turma db) rows.

(** The two ways a call can end on a database that satisfies its
    constraints: it raises and leaves the database as it was, or it
    passed every check and stored its row. *)
Inductive call_outcome (c : Call) (db : Db) : (exn + AttendanceResponse.t) * Db -> Prop :=
| call_rejected e :
    call_outcome c db (inl e, db)
| call_accepted dia_aula :
    AttendanceRequest.action (call_data c) = "marcar_presenca" ->
    session db (AttendanceRequest.dia_aula_id (call_data c)) = Some dia_aula ->
    enrolled_as_student db (DiaDeAula.turma_id dia_aula)
      (Aluno.id (call_student c)) = true ->
    records_of db (Aluno.id (call_student c))
      (AttendanceRequest.dia_aula_id (call_data c)) = [] ->
    existsb (fun q => String.eqb (Presenca.id q) (uuid4 (call_env c))) (presenca db)
      = false ->
    call_outcome c db
      (inr (AttendanceResponse.from_orm
              (new_attendance (call_data c) (call_student c) (call_env c))),
       with_presenca db
         (presenca db ++ [new_attendance (call_data c) (call_student c) (call_env c)])).

Module Calls.
Import Scenario.
(** U1 scans at 1500 and again at 1600; U2 scans at 1550. *)
Definition first_scan : Call := mkCall scan_S1 U1 (mkEnv "r1" 1500).
Definition second_scan : Call := mkCall scan_S1 U1 (mkEnv "r2" 1600).
Definition outsider_scan : Call := mkCall scan_S1 U2 (mkEnv "r3" 1550).
Definition wrong_action : Call :=
  mkCall (AttendanceRequest.make "S1" "mark_attendance") U1 (mkEnv "r4" 1500).
End Calls.

(** The three entry points that mark attendance for a request:
    [POST /attendance/mark], [POST /qrcode/scan] and
    [POST /student/attendance]. *)
Definition entry_points
    (data : AttendanceRequest.t) (student : Aluno.t) (env : Env)
  : list (M AttendanceResponse.t) :=
  [ attendance.mark_attendance data student env;
    qrcode.scan_qrcode data student env;
    student.mark_attendance data student env ].

(** The database after [n] repetitions of one request. *)
Definition repeated {A} (h : M A) (n : nat) (db : Db) : Db :=
  Nat.iter n (fun db => snd (h db)) db.


Definition with_integrante (db : Db) (rows : list IntegranteDaTurma.t) : Db :=
  mkDb (turma db) (dia_de_aula db) rows (presenca db).

(** The membership row [student.join_turma] stores. *)
Definition new_enrollment (turma_id aluno_id : string) (new_id : Z)
  : IntegranteDaTurma.t :=
  IntegranteDaTurma.make new_id turma_id None (Some aluno_id) "aluno".

(** The [where] clause of the enrollment queries. *)
Definition is_enrollment (turma_id aluno_id : string) (i : IntegranteDaTurma.t) : bool :=
  (String.eqb (IntegranteDaTurma.turma_id i) turma_id
   && col_eq (IntegranteDaTurma.aluno_id i) aluno_id
   && String.eqb (IntegranteDaTurma.tipo i) "aluno")%bool.

(** The three handlers that hand a professor the QR code of a session:
    [POST /qrcode/generate], [GET /professor/aula/{id}/qr] and
    [POST /professor/classes/{class_id}/days/{day_id}/qrcode]. *)
Definition qr_endpoints
    (qrcode_png_base64 : string -> string) (class_id : string)
    (data : QRCodeData.t) (professor : Professor.t) (env : Env)
  : list (M QRCodeResponse.t) :=
  [ qrcode.generate_qrcode qrcode_png_base64 data professor env;
    professor.get_qr_code qrcode_png_base64 (QRCodeData.dia_aula_id data)
      professor env;
    classes.generate_qrcode qrcode_png_base64 class_id
      (QRCodeData.dia_aula_id data) professor env ].

(** What [finish_aula] does to a session row. *)
Definition finished (dia_aula_id : string) (r : DiaDeAula.t) : DiaDeAula.t :=
  if String.eqb (DiaDeAula.id r) dia_aula_id then
    DiaDeAula.make (DiaDeAula.id r) (DiaDeAula.turma_id r) (DiaDeAula.data r) true
      (DiaDeAula.professor_id r)
  else r.

Definition with_dia_de_aula (db : Db) (rows : list DiaDeAula.t) : Db :=
  mkDb (turma db) rows (integrante_da_turma db) (presenca db).

(** The student of an attendance row, when the [aluno] table has one. *)
Definition student_of (aluno_table : list Aluno.t) (p : Presenca.t)
  : option Aluno.t :=
  find (fun a => String.eqb (Aluno.id a) (Presenca.aluno_id p)) aluno_table.

(** * Properties *)

(** ** Strings *)

Lemma all_chars_impl (p q : ascii -> bool) s :
  (forall c, p c = true -> q c = true) ->
  all_chars p s = true -> all_chars q s = true.
Proof.
  intros Hpq; induction s as [|c r IH]; simpl; auto.
  intros H; apply andb_true_iff in H as [Hc Hr].
  rewrite (Hpq _ Hc), (IH Hr); reflexivity.
Qed.

Lemma all_chars_app p s1 s2 :
  all_chars p (s1 ++ s2) = (all_chars p s1 && all_chars p s2)%bool.
Proof.
  induction s1 as [|c r IH]; simpl; auto.
  rewrite IH, andb_assoc; reflexivity.
Qed.

Lemma string_of_uint_digits d :
  all_chars is_digit (NilEmpty.string_of_uint d) = true.
Proof. induction d; simpl; auto. Qed.

Lemma int_digits_string_of_uint d :
  int_digits true (NilEmpty.string_of_uint d) = Some d.
Proof. induction d; simpl; try rewrite IHd; reflexivity. Qed.

Lemma int_digits_nonnil d :
  d <> Decimal.Nil -> int_digits false (NilEmpty.string_of_uint d) = Some d.
Proof.
  destruct d; try congruence; intros _; simpl;
    rewrite int_digits_string_of_uint; reflexivity.
Qed.

Lemma lstrip_id s : all_chars (fun c => negb (is_space c)) s = true -> lstrip s = s.
Proof.
  destruct s as [|c r]; simpl; auto.
  intros H; apply andb_true_iff in H as [Hc _].
  apply negb_true_iff in Hc; rewrite Hc; reflexivity.
Qed.

Lemma rstrip_id s : all_chars (fun c => negb (is_space c)) s = true -> rstrip s = s.
Proof.
  induction s as [|c r IH]; simpl; auto.
  intros H; apply andb_true_iff in H as [Hc Hr].
  rewrite (IH Hr). apply negb_true_iff in Hc.
  destruct r; [rewrite Hc|]; reflexivity.
Qed.

Lemma strip_id s : all_chars (fun c => negb (is_space c)) s = true -> strip s = s.
Proof. intros H; unfold strip; rewrite (lstrip_id _ H); apply rstrip_id, H. Qed.

Lemma is_digit_cases c :
  is_digit c = true ->
  is_space c = false /\ Ascii.eqb c "|" = false /\ Ascii.eqb c "-" = false
  /\ Ascii.eqb c "+" = false.
Proof.
  destruct c as [[] [] [] [] [] [] [] []]; cbv; intros H;
    try discriminate H; repeat split; reflexivity.
Qed.

Lemma to_uint_shape p :
  exists c r, NilZero.string_of_uint (Pos.to_uint p) = String c r
              /\ is_digit c = true
              /\ all_chars is_digit r = true
              /\ int_digits false (String c r) = Some (Pos.to_uint p).
Proof.
  pose proof (DecimalPos.Unsigned.to_uint_nonnil p) as Hn.
  pose proof (int_digits_nonnil _ Hn) as Hd.
  pose proof (string_of_uint_digits (Pos.to_uint p)) as Ha.
  destruct (Pos.to_uint p) as [|d|d|d|d|d|d|d|d|d|d] eqn:E; try congruence;
    simpl NilZero.string_of_uint; simpl NilEmpty.string_of_uint in *;
    eexists _, _; (split; [reflexivity|]); (split; [reflexivity|]);
    (split; [exact Ha | exact Hd]).
Qed.

Lemma int_of_str_str_int n : int_of_str (str_int n) = Some n.
Proof.
  unfold str_int.
  destruct n as [|p|p].
  - reflexivity.
  - simpl Z.to_int. simpl NilZero.string_of_int.
    destruct (to_uint_shape p) as (c & r & E & Hc & Hr & Hd).
    rewrite E. unfold int_of_str.
    rewrite strip_id.
    2:{ simpl. destruct (is_digit_cases c Hc) as (-> & _). simpl.
        apply (all_chars_impl is_digit); auto.
        intros a Ha; destruct (is_digit_cases a Ha) as (-> & _); reflexivity. }
    destruct (is_digit_cases c Hc) as (_ & _ & Hm & Hp).
    assert (Hv : option_map Z.of_uint (int_digits false (String c r)) = Some (Z.pos p)).
    { rewrite Hd; simpl. f_equal.
      change (Z.of_int (Z.to_int (Z.pos p)) = Z.pos p). apply DecimalZ.of_to. }
    destruct c as [[] [] [] [] [] [] [] []]; try discriminate Hm; try discriminate Hp;
      exact Hv.
  - simpl Z.to_int. simpl NilZero.string_of_int.
    destruct (to_uint_shape p) as (c & r & E & Hc & Hr & Hd).
    rewrite E. unfold int_of_str.
    rewrite strip_id.
    2:{ simpl. destruct (is_digit_cases c Hc) as (-> & _). simpl.
        apply (all_chars_impl is_digit); auto.
        intros a Ha; destruct (is_digit_cases a Ha) as (-> & _); reflexivity. }
    rewrite Hd. simpl. f_equal.
    change (Z.of_int (Z.to_int (Z.neg p)) = Z.neg p). apply DecimalZ.of_to.
Qed.

Example str_int_examples :
  str_int 1000 = "1000" /\ str_int 0 = "0" /\ str_int (-42) = "-42".
Proof. repeat split; reflexivity. Qed.

Example int_of_str_examples :
  int_of_str " 1_000 " = Some 1000 /\ int_of_str "-7" = Some (-7) /\
  int_of_str "+7" = Some 7 /\ int_of_str EmptyString = None /\
  int_of_str "1__0" = None /\ int_of_str "12a" = None /\
  int_of_str "-" = None.
Proof. repeat split; reflexivity. Qed.

Example split_examples :
  split "|" "a|b|c" = ["a"; "b"; "c"] /\
  split "|" EmptyString = [EmptyString] /\
  split "|" "a||" = ["a"; EmptyString; EmptyString].
Proof. repeat split; reflexivity. Qed.

Lemma split_no_sep sep s :
  all_chars (fun c => negb (Ascii.eqb c sep)) s = true -> split sep s = [s].
Proof.
  induction s as [|c r IH]; simpl; auto.
  intros H; apply andb_true_iff in H as [Hc Hr].
  apply negb_true_iff in Hc; rewrite Hc, (IH Hr); reflexivity.
Qed.

Lemma split_app sep s r :
  all_chars (fun c => negb (Ascii.eqb c sep)) s = true ->
  split sep (s ++ String sep r) = s :: split sep r.
Proof.
  induction s as [|c s IH]; simpl.
  - intros _; rewrite Ascii.eqb_refl; reflexivity.
  - intros H; apply andb_true_iff in H as [Hc Hs].
    apply negb_true_iff in Hc; rewrite Hc, (IH Hs); reflexivity.
Qed.

Lemma str_int_no_pipe n : no_pipe (str_int n) = true.
Proof.
  assert (Hu : forall d, no_pipe (NilEmpty.string_of_uint d) = true).
  { intros d; apply (all_chars_impl is_digit); [|apply string_of_uint_digits].
    intros c Hc; destruct (is_digit_cases c Hc) as (_ & -> & _); reflexivity. }
  assert (Hz : forall d, no_pipe (NilZero.string_of_uint d) = true).
  { intros d; destruct d; try apply Hu; reflexivity. }
  unfold str_int; destruct (Z.to_int n); simpl; [apply Hz|].
  unfold no_pipe in *; simpl; apply Hz.
Qed.

(** ** Token codec *)

(** C4. With the default window of 30 minutes, [validate_qr_timestamp]
    answers true exactly when [now - issuedAt <= 1800]; an age of
    exactly 1800 seconds is accepted, and a token dated in the future
    (negative age) is fresh. *)
Theorem validate_qr_timestamp_window (issuedAt now : Z) :
  (validate_qr_timestamp now issuedAt default_max_age_minutes = true
   <-> now - issuedAt <= 1800)
  /\ validate_qr_timestamp (issuedAt + 1800) issuedAt default_max_age_minutes = true
  /\ (now - issuedAt < 0 ->
      validate_qr_timestamp now issuedAt default_max_age_minutes = true).
Proof.
  unfold validate_qr_timestamp, default_max_age_minutes.
  rewrite !Z.leb_le. repeat split; lia.
Qed.

Lemma validate_qr_timestamp_window_witness :
  (validate_qr_timestamp 1000 2000 default_max_age_minutes = true
   <-> 1000 - 2000 <= 1800)
  /\ validate_qr_timestamp (2000 + 1800) 2000 default_max_age_minutes = true
  /\ validate_qr_timestamp 1000 2000 default_max_age_minutes = true.
Proof.
  destruct (validate_qr_timestamp_window 2000 1000) as (H1 & H2 & H3).
  split; [exact H1 | split; [exact H2 | apply H3; lia]].
Defined.

Example validate_qr_timestamp_examples :
  validate_qr_timestamp 1500 1000 30 = true /\
  validate_qr_timestamp 2800 1000 30 = true /\
  validate_qr_timestamp 2801 1000 30 = false.
Proof. repeat split; reflexivity. Qed.

(** C5, as stated, fails: the action tag a decoded token carries is
    the literal ["marcar_presenca"], not ["mark_attendance"]; and a
    session identifier with a [|] in it does not decode at all. *)
Lemma decode_mint_counterexample :
  ~ (forall sessionId t,
       parse_qr_data (mint sessionId t)
       = inr (QRCodeData.make sessionId t "mark_attendance"))
  /\ parse_qr_data (mint "S1" 1000) = inr (QRCodeData.make "S1" 1000 "marcar_presenca")
  /\ parse_qr_data (mint "a|b" 1000) = inl Invalid_QR_code_format.
Proof.
  split; [|split; reflexivity].
  intros H; specialize (H "S1" 1000); vm_compute in H; discriminate H.
Qed.

(** C5, amended. For every session identifier without a [|] (the
    identifiers the system generates are UUID strings) and every
    timestamp [t], the token minted for [(sessionId, t)] is the string
    [<sessionId>|<t in decimal>|marcar_presenca], and decoding it
    succeeds and gives back [sessionId], [t] and the action tag
    ["marcar_presenca"]. *)
Theorem decode_mint (sessionId : string) (t : Z) :
  no_pipe sessionId = true ->
  mint sessionId t = sessionId ++ "|" ++ str_int t ++ "|" ++ "marcar_presenca"
  /\ parse_qr_data (mint sessionId t)
     = inr (QRCodeData.make sessionId t "marcar_presenca").
Proof.
  intros Hs; split; [reflexivity|].
  unfold parse_qr_data, mint, qr_string; cbn [QRCodeData.dia_aula_id
    QRCodeData.timestamp QRCodeData.action].
  change (sessionId ++ "|" ++ str_int t ++ "|" ++ "marcar_presenca")
    with (sessionId ++ String "|" (str_int t ++ String "|" "marcar_presenca")).
  rewrite (split_app "|" sessionId _ Hs).
  rewrite (split_app "|" (str_int t) _ (str_int_no_pipe t)).
  rewrite split_no_sep by reflexivity.
  rewrite int_of_str_str_int; reflexivity.
Qed.

Lemma decode_mint_witness :
  no_pipe "S1" = true
  /\ mint "S1" 1000 = "S1|1000|marcar_presenca"
  /\ parse_qr_data (mint "S1" 1000)
     = inr (QRCodeData.make "S1" 1000 "marcar_presenca").
Proof.
  split; [reflexivity|]. apply (decode_mint "S1" 1000). reflexivity.
Defined.

(** ** Queries on a table that satisfies its constraints *)

Section Unique.
Context {T K : Type} (key : T -> option K) (test : T -> bool) (k : K).
Hypothesis test_key : forall r, test r = true -> key r = Some k.

Lemma filter_nil_notin rows : ~ In k (keys key rows) -> filter test rows = [].
Proof.
  induction rows as [|r l IH]; simpl; auto.
  intros Hn. unfold keys in Hn; simpl in Hn.
  destruct (test r) eqn:Er.
  - rewrite (test_key r Er) in Hn. exfalso; apply Hn; left; reflexivity.
  - apply IH. intros Hin; apply Hn, in_or_app; right; exact Hin.
Qed.

Lemma scalar_one_or_none_unique rows db :
  NoDup (keys key rows) ->
  scalar_one_or_none (filter test rows) db = (inr (find test rows), db).
Proof.
  induction rows as [|r l IH]; simpl; [reflexivity|].
  unfold keys; simpl; fold (keys key l). intros Hnd.
  destruct (test r) eqn:Er.
  - rewrite (test_key r Er) in Hnd. simpl in Hnd.
    apply NoDup_cons_iff in Hnd as [Hn _].
    rewrite (filter_nil_notin l Hn); reflexivity.
  - apply IH. destruct (key r); [apply NoDup_cons_iff in Hnd as [_ Hnd]|];
      exact Hnd.
Qed.
End Unique.

Lemma keys_total {T K} (f : T -> K) rows :
  keys (fun r => Some (f r)) rows = map f rows.
Proof.
  unfold keys; induction rows as [|r l IH]; simpl; [|rewrite IH]; reflexivity.
Qed.

Lemma existsb_find {T} (f : T -> bool) l :
  existsb f l = match find f l with Some _ => true | None => false end.
Proof. induction l as [|a l IH]; simpl; auto. destruct (f a); auto. Qed.

Lemma existsb_filter {T} (f : T -> bool) l :
  existsb f l = match filter f l with [] => false | _ => true end.
Proof. induction l as [|a l IH]; simpl; auto. destruct (f a); auto. Qed.

Lemma find_filter {T} (f : T -> bool) l :
  find f l = hd_error (filter f l).
Proof. induction l as [|a l IH]; simpl; auto. destruct (f a); auto. Qed.

(** ** The mark-attendance operation, case by case *)

(** What [attendance.mark_attendance] does on a database that
    satisfies its constraints: the checks in the order of the body. *)
Lemma mark_attendance_eq data student env db :
  Db_ok db ->
  attendance.mark_attendance data student env db =
  if negb (String.eqb (AttendanceRequest.action data) "marcar_presenca") then
    (inl InvalidAction, db)
  else
    match session db (AttendanceRequest.dia_aula_id data) with
    | None => (inl SessionNotFound, db)
    | Some dia_aula =>
        if negb (enrolled_as_student db (DiaDeAula.turma_id dia_aula) (Aluno.id student))
        then (inl NotEnrolled, db)
        else
          match records_of db (Aluno.id student) (AttendanceRequest.dia_aula_id data) with
          | _ :: _ => (inl AlreadyMarked, db)
          | [] =>
              if existsb (fun q => String.eqb (Presenca.id q) (uuid4 env)) (presenca db)
              then (inl IntegrityError, db)
              else (inr (AttendanceResponse.from_orm (new_attendance data student env)),
                    with_presenca db (presenca db ++ [new_attendance data student env]))
          end
    end.
Proof.
  intros [Hd Hi Hp Hu].
  unfold attendance.mark_attendance.
  destruct (negb _); [reflexivity|].
  unfold bind at 1, select at 1. unfold bind at 1.
  rewrite (scalar_one_or_none_unique (fun d => Some (DiaDeAula.id d)) _
             (AttendanceRequest.dia_aula_id data)).
  2:{ intros r Hr; apply String.eqb_eq in Hr; rewrite Hr; reflexivity. }
  2:{ rewrite keys_total; exact Hd. }
  unfold session.
  destruct (find _ (dia_de_aula db)) as [dia|]; [|reflexivity].
  unfold bind at 1, select at 1. unfold bind at 1.
  rewrite (scalar_one_or_none_unique
             (fun i => option_map (pair (IntegranteDaTurma.turma_id i))
                         (IntegranteDaTurma.aluno_id i)) _
             (DiaDeAula.turma_id dia, Aluno.id student)).
  2:{ intros r Hr. apply andb_true_iff in Hr as [Hr _].
      apply andb_true_iff in Hr as [Ht Ha]. apply String.eqb_eq in Ht.
      unfold col_eq in Ha. destruct (IntegranteDaTurma.aluno_id r); [|discriminate].
      apply String.eqb_eq in Ha; subst; rewrite Ht; reflexivity. }
  2:{ exact Hi. }
  unfold enrolled_as_student. rewrite existsb_find.
  destruct (find _ (integrante_da_turma db)); [|reflexivity]. simpl negb. cbv iota.
  unfold bind at 1, select at 1. unfold bind at 1.
  rewrite (scalar_one_or_none_unique
             (fun p => Some (Presenca.aluno_id p, Presenca.dia_aula_id p)) _
             (Aluno.id student, AttendanceRequest.dia_aula_id data)).
  2:{ intros r Hr. apply andb_true_iff in Hr as [Ha Hs].
      apply String.eqb_eq in Ha, Hs; rewrite Ha, Hs; reflexivity. }
  2:{ rewrite keys_total; exact Hu. }
  unfold records_of. rewrite find_filter.
  destruct (filter _ (presenca db)) as [|q qs] eqn:Ef; [|reflexivity].
  unfold bind, add_commit, ret; cbv beta iota delta [hd_error]. fold (new_attendance data student env).
  change (Presenca.id (new_attendance data student env)) with (uuid4 env).
  change (Presenca.aluno_id (new_attendance data student env)) with (Aluno.id student).
  change (Presenca.dia_aula_id (new_attendance data student env))
    with (AttendanceRequest.dia_aula_id data).
  rewrite (existsb_filter (same_aluno_dia_aula _ _)), Ef, orb_false_r.
  destruct (existsb _ (presenca db)); reflexivity.
Qed.

Lemma filter_length_unique {T K} (key : T -> option K) (test : T -> bool) (k : K) rows :
  (forall r, test r = true -> key r = Some k) ->
  NoDup (keys key rows) ->
  (List.length (filter test rows) <= 1)%nat.
Proof.
  intros Hk Hnd.
  pose proof (scalar_one_or_none_unique key test k Hk rows (mkDb [] [] [] []) Hnd) as H.
  destruct (filter test rows) as [|a [|b l]]; simpl; auto.
  discriminate H.
Qed.

Lemma same_aluno_dia_aula_iff aluno_id dia_aula_id p :
  same_aluno_dia_aula aluno_id dia_aula_id p = true
  <-> Presenca.aluno_id p = aluno_id /\ Presenca.dia_aula_id p = dia_aula_id.
Proof.
  unfold same_aluno_dia_aula. rewrite andb_true_iff, !String.eqb_eq. tauto.
Qed.

Lemma records_of_at_most_one db aluno_id dia_aula_id :
  Db_ok db -> (List.length (records_of db aluno_id dia_aula_id) <= 1)%nat.
Proof.
  intros [_ _ _ Hu]. unfold records_of.
  apply (filter_length_unique
           (fun p => Some (Presenca.aluno_id p, Presenca.dia_aula_id p)) _
           (aluno_id, dia_aula_id)).
  - intros r Hr. apply same_aluno_dia_aula_iff in Hr as [-> ->]; reflexivity.
  - rewrite keys_total; exact Hu.
Qed.

(** ** One call: what it may change *)

Lemma run_outcome c db : Db_ok db -> call_outcome c db (run c db).
Proof.
  intros Hok. unfold run. rewrite (mark_attendance_eq _ _ _ _ Hok).
  destruct (negb _) eqn:Ea; [constructor|].
  apply negb_false_iff, String.eqb_eq in Ea.
  destruct (session db _) as [dia|] eqn:Es; [|constructor].
  destruct (negb (enrolled_as_student _ _ _)) eqn:Ee; [constructor|].
  apply negb_false_iff in Ee.
  destruct (records_of db _ _) eqn:Er; [|constructor].
  destruct (existsb _ (presenca db)) eqn:Ex; [constructor|].
  econstructor; eassumption.
Qed.

Lemma existsb_false_notin {T K} (f : T -> K) (eqb : K -> K -> bool) k rows :
  (forall x y, eqb x y = true <-> x = y) ->
  existsb (fun q => eqb (f q) k) rows = false -> ~ In k (map f rows).
Proof.
  intros Heq Hex Hin. apply in_map_iff in Hin as (q & Hq & Hin).
  assert (existsb (fun q => eqb (f q) k) rows = true) as Ht.
  { apply existsb_exists; exists q; split; [exact Hin|]. apply Heq; exact Hq. }
  congruence.
Qed.

Lemma NoDup_snoc {A} (l : list A) a : NoDup l -> ~ In a l -> NoDup (l ++ [a]).
Proof.
  intros Hl Ha. apply NoDup_app; [exact Hl | repeat constructor; intros [] | ].
  intros x Hx [<-|[]]; exact (Ha Hx).
Qed.

Lemma run_Db_ok c db : Db_ok db -> Db_ok (snd (run c db)).
Proof.
  intros Hok. destruct (run_outcome c db Hok) as [e|dia Ha Hs He Hr Hx]; [exact Hok|].
  destruct Hok as [Hd Hi Hp Hu]. constructor; simpl; auto.
  - rewrite map_app; simpl. apply NoDup_snoc; [exact Hp|].
    apply (existsb_false_notin Presenca.id String.eqb); [apply String.eqb_eq|exact Hx].
  - rewrite map_app; simpl. apply NoDup_snoc; [exact Hu|].
    intros Hin. apply in_map_iff in Hin as (q & Hq & Hin).
    injection Hq as Hq1 Hq2.
    assert (In q (records_of db (Aluno.id (call_student c))
                    (AttendanceRequest.dia_aula_id (call_data c)))) as Hq.
    { apply filter_In; split; [exact Hin|].
      apply same_aluno_dia_aula_iff; split; assumption. }
    rewrite Hr in Hq; exact Hq.
Qed.

Lemma run_tables c db :
  Db_ok db ->
  dia_de_aula (snd (run c db)) = dia_de_aula db
  /\ integrante_da_turma (snd (run c db)) = integrante_da_turma db
  /\ incl (presenca db) (presenca (snd (run c db))).
Proof.
  intros Hok. destruct (run_outcome c db Hok); simpl;
    repeat split; auto using incl_refl, incl_appl.
Qed.

Lemma exec_app cs cs' db : exec (cs ++ cs') db = exec cs' (exec cs db).
Proof. apply fold_left_app. Qed.

Lemma exec_invariant cs db :
  Db_ok db ->
  Db_ok (exec cs db)
  /\ dia_de_aula (exec cs db) = dia_de_aula db
  /\ integrante_da_turma (exec cs db) = integrante_da_turma db
  /\ incl (presenca db) (presenca (exec cs db)).
Proof.
  revert db; induction cs as [|c cs IH]; intros db Hok; simpl.
  - split; [exact Hok|]. repeat split; auto using incl_refl.
  - destruct (run_tables c db Hok) as (Hd & Hi & Hp).
    destruct (IH _ (run_Db_ok c db Hok)) as (Hok' & Hd' & Hi' & Hp').
    split; [exact Hok'|]. repeat split; try congruence.
    eapply incl_tran; eassumption.
Qed.

Ltac db_ok :=
  constructor; simpl; unfold keys; simpl;
  repeat (constructor; simpl; try (intuition discriminate)).

(** ** Uniqueness of attendance records *)

(** C1. From a database that satisfies its constraints, after any
    sequence of mark-attendance calls there is at most one attendance
    record for every (student, session) pair; and once a call for a
    pair has succeeded, every later repetition of it (same student,
    same request) is rejected as AlreadyMarked (409) and stores
    nothing. *)
Theorem one_record_per_pair (db : Db) (cs : list Call) :
  Db_ok db ->
  (forall aluno_id dia_aula_id,
      (List.length (records_of (exec cs db) aluno_id dia_aula_id) <= 1)%nat)
  /\ (forall pre c mid c' post r,
         cs = (pre ++ c :: mid ++ c' :: post)%list ->
         Aluno.id (call_student c') = Aluno.id (call_student c) ->
         call_data c' = call_data c ->
         fst (run c (exec pre db)) = inr r ->
         run c' (exec (pre ++ c :: mid)%list db)
         = (inl AlreadyMarked, exec (pre ++ c :: mid)%list db)
         /\ fst (exception_response AlreadyMarked) = 409).
Proof.
  intros Hok; split.
  - intros a d. apply records_of_at_most_one, exec_invariant, Hok.
  - intros pre c mid c' post r _ Hst Hda Hr. split; [|reflexivity].
    destruct (exec_invariant pre db Hok) as (Hok1 & _).
    assert (Hex : exec (pre ++ c :: mid)%list db
                  = exec mid (snd (run c (exec pre db))))
      by (rewrite exec_app; reflexivity).
    rewrite Hex; clear Hex.
    pose proof (run_outcome c _ Hok1) as Ho.
    pose proof (run_Db_ok c _ Hok1) as Hok2.
    set (db1 := exec pre db) in *.
    remember (run c db1) as o eqn:Eo.
    destruct Ho as [e|dia Ha Hs He Hn Hx]; [discriminate Hr|].
    simpl snd in *.
    set (p := new_attendance (call_data c) (call_student c) (call_env c)) in *.
    set (db2 := with_presenca db1 (presenca db1 ++ [p])) in *.
    destruct (exec_invariant mid db2 Hok2) as (Hok3 & Hd3 & Hi3 & Hp3).
    set (db3 := exec mid db2) in *.
    unfold run. rewrite (mark_attendance_eq _ _ _ _ Hok3).
    rewrite Hda, Hst, Ha. simpl negb. cbv iota.
    unfold session in *. rewrite Hd3. simpl dia_de_aula. rewrite Hs.
    unfold enrolled_as_student in *. rewrite Hi3. simpl integrante_da_turma.
    rewrite He. simpl negb. cbv iota.
    assert (Hin : In p (records_of db3 (Aluno.id (call_student c))
                          (AttendanceRequest.dia_aula_id (call_data c)))).
    { apply filter_In; split.
      - apply Hp3. simpl. apply in_or_app; right; left; reflexivity.
      - apply same_aluno_dia_aula_iff; split; reflexivity. }
    destruct (records_of db3 _ _); [destruct Hin | reflexivity].
Qed.

Lemma one_record_per_pair_witness :
  Db_ok Scenario.db0
  /\ (List.length
        (records_of
           (exec [Calls.first_scan; Calls.outsider_scan; Calls.second_scan]
              Scenario.db0) "U1" "S1") <= 1)%nat
  /\ run Calls.second_scan
       (exec [Calls.first_scan; Calls.outsider_scan] Scenario.db0)
     = (inl AlreadyMarked,
        exec [Calls.first_scan; Calls.outsider_scan] Scenario.db0).
Proof.
  assert (Hok : Db_ok Scenario.db0) by db_ok.
  split; [exact Hok|].
  destruct (one_record_per_pair Scenario.db0
              [Calls.first_scan; Calls.outsider_scan; Calls.second_scan] Hok)
    as [H1 H2].
  split; [apply H1|].
  apply (H2 [] Calls.first_scan [Calls.outsider_scan] Calls.second_scan []
            (AttendanceResponse.from_orm
               (new_attendance Scenario.scan_S1 Scenario.U1 (mkEnv "r1" 1500))));
    reflexivity.
Defined.

Example scenario_runs :
  fst (run Calls.first_scan Scenario.db0)
  = inr (AttendanceResponse.make "r1" "U1" "S1" 1500 None None)
  /\ presenca (exec [Calls.first_scan] Scenario.db0)
     = [Presenca.make "r1" "U1" "S1" 1500]
  /\ fst (run Calls.second_scan (exec [Calls.first_scan] Scenario.db0))
     = inl AlreadyMarked
  /\ fst (run Calls.outsider_scan Scenario.db0) = inl NotEnrolled
  /\ fst (run Calls.wrong_action Scenario.db0) = inl InvalidAction.
Proof. repeat split; reflexivity. Qed.

(** ** Order of the checks *)

(** C2, as stated, fails: the literal the action is compared with is
    ["marcar_presenca"]; a request whose action is ["mark_attendance"]
    is rejected with InvalidAction. *)
Lemma action_literal_counterexample :
  ~ (forall data student env db,
       fst (attendance.mark_attendance data student env db) = inl InvalidAction
       <-> AttendanceRequest.action data <> "mark_attendance").
Proof.
  intros H.
  destruct (H (AttendanceRequest.make "S1" "mark_attendance") Scenario.U1
              (mkEnv "r4" 1500) Scenario.db0) as [H1 _].
  apply H1; reflexivity.
Qed.

(** C2, amended. On a database that satisfies its constraints the
    mark-attendance operation runs its checks in the order action,
    session existence, enrollment, duplicate, and stops at the first
    that fails: InvalidAction (400), SessionNotFound (404), NotEnrolled
    (403), AlreadyMarked (409); a rejected call stores nothing.  The
    action check rejects exactly when the requested action differs from
    the literal ["marcar_presenca"].  A call that passes the four checks
    with an unused record identifier stores its record and returns it. *)
Theorem checks_in_order data student env db :
  Db_ok db ->
  let out := attendance.mark_attendance data student env db in
  let action_ok := AttendanceRequest.action data = "marcar_presenca" in
  let dia_aula_id := AttendanceRequest.dia_aula_id data in
  (fst out = inl InvalidAction <-> ~ action_ok)
  /\ (~ action_ok -> out = (inl InvalidAction, db))
  /\ (action_ok -> session db dia_aula_id = None ->
      out = (inl SessionNotFound, db))
  /\ (forall dia_aula,
        action_ok -> session db dia_aula_id = Some dia_aula ->
        (enrolled_as_student db (DiaDeAula.turma_id dia_aula) (Aluno.id student)
           = false ->
         out = (inl NotEnrolled, db))
        /\ (enrolled_as_student db (DiaDeAula.turma_id dia_aula) (Aluno.id student)
              = true ->
            (records_of db (Aluno.id student) dia_aula_id <> [] ->
             out = (inl AlreadyMarked, db))
            /\ (records_of db (Aluno.id student) dia_aula_id = [] ->
                ~ In (uuid4 env) (map Presenca.id (presenca db)) ->
                out = (inr (AttendanceResponse.from_orm
                              (new_attendance data student env)),
                       with_presenca db
                         (presenca db ++ [new_attendance data student env])))))
  /\ map exception_response
       [InvalidAction; SessionNotFound; NotEnrolled; AlreadyMarked]
     = [(400, "Invalid QR code action"); (404, "Class session not found");
        (403, "You are not enrolled in this class");
        (409, "Attendance already marked for this class session")].
Proof.
  intros Hok out action_ok dia_aula_id. subst out action_ok dia_aula_id.
  rewrite (mark_attendance_eq _ _ _ _ Hok).
  destruct (String.eqb (AttendanceRequest.action data) "marcar_presenca") eqn:Ea;
    simpl negb; cbv iota.
  - apply String.eqb_eq in Ea.
    split.
    { split; [|intros H; contradiction].
      destruct (session db _); [|discriminate].
      destruct (negb _); [discriminate|].
      destruct (records_of db _ _); [|discriminate].
      destruct (existsb _ _); discriminate. }
    split; [intros H; contradiction|].
    split; [intros _ ->; reflexivity|].
    split; [|reflexivity].
    intros dia _ ->. split; [intros ->; reflexivity|].
    intros ->; simpl negb; cbv iota. split.
    + destruct (records_of db _ _); [congruence|reflexivity].
    + intros -> Hn.
      destruct (existsb _ (presenca db)) eqn:Ex; [|reflexivity].
      exfalso; apply Hn. apply existsb_exists in Ex as (q & Hq & Hid).
      apply String.eqb_eq in Hid. apply in_map_iff; exists q; auto.
  - apply String.eqb_neq in Ea.
    split; [split; [intros _; exact Ea | reflexivity]|].
    split; [reflexivity|].
    split; [intros H; contradiction|].
    split; [|reflexivity].
    intros dia H; contradiction.
Qed.

Lemma checks_in_order_witness :
  Db_ok Scenario.db0
  /\ fst (attendance.mark_attendance Scenario.scan_S1 Scenario.U2
            (mkEnv "r3" 1550) Scenario.db0) = inl NotEnrolled
  /\ attendance.mark_attendance Scenario.scan_S1 Scenario.U1
       (mkEnv "r1" 1500) Scenario.db0
     = (inr (AttendanceResponse.make "r1" "U1" "S1" 1500 None None),
        with_presenca Scenario.db0 [Presenca.make "r1" "U1" "S1" 1500]).
Proof.
  assert (Hok : Db_ok Scenario.db0) by db_ok.
  split; [exact Hok|].
  split.
  - destruct (checks_in_order Scenario.scan_S1 Scenario.U2 (mkEnv "r3" 1550)
                Scenario.db0 Hok) as (_ & _ & _ & H & _).
    destruct (H (DiaDeAula.make "S1" "C1" 900 false "P1") eq_refl eq_refl)
      as [Hn _].
    rewrite (Hn eq_refl); reflexivity.
  - destruct (checks_in_order Scenario.scan_S1 Scenario.U1 (mkEnv "r1" 1500)
                Scenario.db0 Hok) as (_ & _ & _ & H & _).
    destruct (H (DiaDeAula.make "S1" "C1" 900 false "P1") eq_refl eq_refl)
      as [_ He].
    destruct (He eq_refl) as [_ Hacc].
    apply Hacc; [reflexivity | simpl; tauto].
Defined.

(** ** The direct student entry point *)

Lemma student_mark_attendance_eq data student env db :
  student.mark_attendance data student env db
  = (inl (AttributeError "timestamp"), db).
Proof. reflexivity. Qed.

(** C10. On [POST /student/attendance] every request ends in an
    [AttributeError] before any check is made: the handler reads
    [attendance_data.timestamp], and an [AttendanceRequest] has only
    [dia_aula_id] and [action].  The caller gets the generic 500
    response; no request on this path is accepted or receives one of
    the rejection kinds, and nothing is stored. *)
Theorem student_mark_attendance_fails data student env db :
  student.mark_attendance data student env db
  = (inl (AttributeError "timestamp"), db)
  /\ exception_response (AttributeError "timestamp")
     = (500, "Internal server error")
  /\ (forall r, fst (student.mark_attendance data student env db) <> inr r)
  /\ (forall e,
        In e [InvalidAction; TokenExpired; SessionNotFound; NotEnrolled;
              AlreadyMarked] ->
        fst (student.mark_attendance data student env db) <> inl e).
Proof.
  pose proof (student_mark_attendance_eq data student env db) as H.
  split; [exact H|]. split; [reflexivity|]. rewrite H; simpl.
  split; [intros r; discriminate|].
  intros e [<-|[<-|[<-|[<-|[<-|[]]]]]]; discriminate.
Qed.

Lemma student_mark_attendance_fails_witness :
  fst (student.mark_attendance Scenario.scan_S1 Scenario.U1 (mkEnv "r1" 1500)
         Scenario.db0) <> inl NotEnrolled.
Proof.
  apply (student_mark_attendance_fails Scenario.scan_S1 Scenario.U1
           (mkEnv "r1" 1500) Scenario.db0).
  simpl; tauto.
Defined.

(** ** Rejections leave the database alone *)

Lemma select_run {T} (table : Db -> list T) where_ {B} (k : list T -> M B) db :
  bind (select table where_) k db = k (filter where_ (table db)) db.
Proof. reflexivity. Qed.

Lemma scalar_run {T} (rows : list T) {B} (k : option T -> M B) db :
  bind (scalar_one_or_none rows) k db
  = match rows with
    | [] => k None db
    | [r] => k (Some r) db
    | _ => (inl MultipleResultsFound, db)
    end.
Proof. destruct rows as [|? [|? ?]]; reflexivity. Qed.

(** Whatever the state of the tables, a call that raises has stored
    nothing. *)
Lemma mark_attendance_raises data student env db e db' :
  attendance.mark_attendance data student env db = (inl e, db') -> db' = db.
Proof.
  unfold attendance.mark_attendance.
  destruct (negb _); [intros H; injection H; auto|].
  rewrite select_run, scalar_run.
  destruct (filter _ (dia_de_aula db)) as [|dia [|? ?]];
    try (intros H; injection H; auto; fail).
  rewrite select_run, scalar_run.
  destruct (filter _ (integrante_da_turma db)) as [|i [|? ?]];
    try (intros H; injection H; auto; fail).
  rewrite select_run, scalar_run.
  destruct (filter _ (presenca db)) as [|p [|? ?]];
    try (intros H; injection H; auto; fail).
  unfold bind, add_commit, ret.
  destruct (_ || _)%bool; intros H; [injection H; auto | discriminate H].
Qed.

Lemma repeated_fixed {A} (h : M A) db :
  snd (h db) = db -> forall n, repeated h n db = db.
Proof.
  intros H n; induction n as [|n IH]; [reflexivity|].
  unfold repeated in *; simpl. rewrite IH; exact H.
Qed.

(** C7. On each entry point a call that ends in a rejection leaves
    the database exactly as it was; so repeating the call with the same
    inputs, any number of times, meets the same database and ends in
    the same rejection. *)
Theorem rejection_is_repeatable data student env h db e :
  In h (entry_points data student env) ->
  fst (h db) = inl e ->
  h db = (inl e, db)
  /\ forall n, repeated h n db = db /\ h (repeated h n db) = (inl e, db).
Proof.
  intros Hin He.
  assert (Hdb : h db = (inl e, db)).
  { destruct (h db) as [r db'] eqn:Eh. simpl in He; subst r.
    f_equal. destruct Hin as [<-|[<-|[<-|[]]]].
    - eapply mark_attendance_raises; exact Eh.
    - eapply mark_attendance_raises; exact Eh.
    - rewrite student_mark_attendance_eq in Eh; injection Eh; auto. }
  split; [exact Hdb|].
  intros n. rewrite (repeated_fixed h db) by (rewrite Hdb; reflexivity).
  split; [reflexivity | exact Hdb].
Qed.

Lemma rejection_is_repeatable_witness :
  repeated (attendance.mark_attendance Scenario.scan_S1 Scenario.U2
              (mkEnv "r3" 1550)) 3 Scenario.db0 = Scenario.db0
  /\ attendance.mark_attendance Scenario.scan_S1 Scenario.U2 (mkEnv "r3" 1550)
       (repeated (attendance.mark_attendance Scenario.scan_S1 Scenario.U2
                    (mkEnv "r3" 1550)) 3 Scenario.db0)
     = (inl NotEnrolled, Scenario.db0).
Proof.
  apply (rejection_is_repeatable Scenario.scan_S1 Scenario.U2 (mkEnv "r3" 1550)
           (attendance.mark_attendance Scenario.scan_S1 Scenario.U2
              (mkEnv "r3" 1550))
           Scenario.db0 NotEnrolled).
  - left; reflexivity.
  - reflexivity.
Defined.

(** ** The enrollment gate *)

(** On [POST /attendance/mark] and [POST /qrcode/scan] a student who is
    not enrolled in the class of the session gets NotEnrolled, at any
    time of the scan, and nothing is stored. *)
Lemma not_enrolled_rejected data student env db dia_aula h :
  Db_ok db ->
  In h [attendance.mark_attendance data student env;
        qrcode.scan_qrcode data student env] ->
  AttendanceRequest.action data = "marcar_presenca" ->
  session db (AttendanceRequest.dia_aula_id data) = Some dia_aula ->
  enrolled_as_student db (DiaDeAula.turma_id dia_aula) (Aluno.id student) = false ->
  h db = (inl NotEnrolled, db).
Proof.
  intros Hok Hin Ha Hs He.
  assert (h = attendance.mark_attendance data student env) as ->
    by (destruct Hin as [<-|[<-|[]]]; reflexivity).
  rewrite (mark_attendance_eq _ _ _ _ Hok), Ha, Hs, He; reflexivity.
Qed.

(** C6, at the failing input. U2 is not enrolled in the class of S1
    and asks with the right action.  [POST /student/attendance] ends in
    the [AttributeError] on [timestamp] and answers 500 instead of
    NotEnrolled (403); the same request on [POST /attendance/mark] and
    on [POST /qrcode/scan] is rejected with NotEnrolled.  No record is
    stored on any of the three. *)
Theorem enrollment_gate_student_path :
  let data := Scenario.scan_S1 in
  let env := mkEnv "r3" 1550 in
  enrolled_as_student Scenario.db0 "C1" (Aluno.id Scenario.U2) = false
  /\ student.mark_attendance data Scenario.U2 env Scenario.db0
     = (inl (AttributeError "timestamp"), Scenario.db0)
  /\ fst (exception_response (AttributeError "timestamp")) = 500
  /\ attendance.mark_attendance data Scenario.U2 env Scenario.db0
     = (inl NotEnrolled, Scenario.db0)
  /\ qrcode.scan_qrcode data Scenario.U2 env Scenario.db0
     = (inl NotEnrolled, Scenario.db0)
  /\ fst (exception_response NotEnrolled) = 403.
Proof. repeat split; reflexivity. Qed.

(** ** Token freshness on the scan path *)

(** No request on [POST /qrcode/scan] is ever answered with
    TokenExpired: the handler makes no freshness check. *)
Lemma scan_qrcode_never_expired data student env db :
  fst (qrcode.scan_qrcode data student env db) <> inl TokenExpired.
Proof.
  unfold qrcode.scan_qrcode, attendance.mark_attendance.
  destruct (negb _); [discriminate|].
  rewrite select_run, scalar_run.
  destruct (filter _ (dia_de_aula db)) as [|dia [|? ?]]; try discriminate.
  rewrite select_run, scalar_run.
  destruct (filter _ (integrante_da_turma db)) as [|i [|? ?]]; try discriminate.
  rewrite select_run, scalar_run.
  destruct (filter _ (presenca db)) as [|p [|? ?]]; try discriminate.
  unfold bind, add_commit, ret.
  destruct (_ || _)%bool; discriminate.
Qed.

(** C3, at the failing input. The token of S1 minted at 1000 is
    decoded by the client and posted 1801 seconds later by U1, who is
    enrolled.  Its age is outside the 30-minute window, yet
    [POST /qrcode/scan] accepts the request and stores the record: the
    request model drops the timestamp and the freshness check of
    [attendance.mark_attendance] is commented out. *)
Theorem scan_accepts_expired_token :
  let body := QRCodeData.make "S1" 1000 "marcar_presenca" in
  let env := mkEnv "r1" (1000 + 1801) in
  parse_qr_data (mint "S1" 1000) = inr body
  /\ validate_qr_timestamp (now env) (QRCodeData.timestamp body)
       default_max_age_minutes = false
  /\ qrcode.scan_qrcode (AttendanceRequest.of_body body) Scenario.U1 env Scenario.db0
     = (inr (AttendanceResponse.make "r1" "U1" "S1" 2801 None None),
        with_presenca Scenario.db0 [Presenca.make "r1" "U1" "S1" 2801]).
Proof. repeat split; reflexivity. Qed.

(** ** Attendance count *)

(** C9, at every input. [GET /attendance/{day_id}/count] raises
    [NameError]: the body names [func], which
    [routers/attendance/attendance.py] never imports.  The caller gets
    the generic 500 response instead of the count. *)
Theorem get_attendance_count_raises day_id db :
  attendance.get_attendance_count day_id db = (inl (NameError "func"), db)
  /\ exception_response (NameError "func") = (500, "Internal server error").
Proof. split; reflexivity. Qed.

(** ** QR code generation *)

Lemma find_owned rows dia_aula_id professor_id :
  NoDup (map DiaDeAula.id rows) ->
  filter (fun d => String.eqb (DiaDeAula.id d) dia_aula_id
                   && String.eqb (DiaDeAula.professor_id d) professor_id)%bool rows
  = match find (fun d => String.eqb (DiaDeAula.id d) dia_aula_id) rows with
    | Some d => if String.eqb (DiaDeAula.professor_id d) professor_id
                then [d] else []
    | None => []
    end.
Proof.
  induction rows as [|d l IH]; simpl; [reflexivity|].
  intros Hnd. apply NoDup_cons_iff in Hnd as [Hn Hnd].
  destruct (String.eqb (DiaDeAula.id d) dia_aula_id) eqn:Ei; simpl.
  - apply String.eqb_eq in Ei.
    assert (Hl : filter (fun d => String.eqb (DiaDeAula.id d) dia_aula_id
                          && String.eqb (DiaDeAula.professor_id d) professor_id)%bool l
                 = []).
    { apply (filter_nil_notin (fun d => Some (DiaDeAula.id d)) _ dia_aula_id).
      - intros r Hr. apply andb_true_iff in Hr as [Hr _].
        apply String.eqb_eq in Hr; rewrite Hr; reflexivity.
      - rewrite keys_total, <- Ei; exact Hn. }
    rewrite Hl. destruct (String.eqb _ professor_id); reflexivity.
  - apply IH, Hnd.
Qed.

(** C8, as stated, fails: a professor who does not own the session is
    turned away with 404 "Class day not found or access denied", which
    is not a Forbidden (403) rejection. *)
Lemma generate_qrcode_counterexample :
  ~ (forall render data professor env db,
       owner_of db (QRCodeData.dia_aula_id data) <> Some (Professor.id professor) ->
       exists e, fst (qrcode.generate_qrcode render data professor env db) = inl e
                 /\ Forbidden e).
Proof.
  intros H.
  destruct (H Scenario.render (QRCodeData.make "S1" 0 "marcar_presenca")
              Scenario.P2 (mkEnv "r0" 1000) Scenario.db0) as (e & He & Hf).
  - discriminate.
  - vm_compute in He. injection He as <-. discriminate Hf.
Qed.

(** C8, amended. When the professor who asks is not the owner of the
    requested session (or there is no such session) the
    token-generation operation rejects with 404 "Class day not found or
    access denied"; when the professor is the owner it returns the
    session identifier, the issuance time, the action tag
    ["marcar_presenca"] and the encoded token, the QR image of the
    minted string. *)
Theorem generate_qrcode_owner render data professor env db :
  Db_ok db ->
  (owner_of db (QRCodeData.dia_aula_id data) <> Some (Professor.id professor) ->
   qrcode.generate_qrcode render data professor env db
   = (inl (HTTPException 404 "Class day not found or access denied"), db))
  /\ (owner_of db (QRCodeData.dia_aula_id data) = Some (Professor.id professor) ->
      qrcode.generate_qrcode render data professor env db
      = (inr (QRCodeResponse.make
                (QRCodeData.make (QRCodeData.dia_aula_id data) (now env)
                   "marcar_presenca")
                (Some ("data:image/png;base64,"
                       ++ render (mint (QRCodeData.dia_aula_id data) (now env))))),
         db)).
Proof.
  intros [Hd _ _ _].
  unfold qrcode.generate_qrcode. rewrite select_run, scalar_run.
  rewrite (find_owned _ _ _ Hd). unfold owner_of, session.
  destruct (find _ (dia_de_aula db)) as [d|]; simpl.
  - destruct (String.eqb (DiaDeAula.professor_id d) (Professor.id professor)) eqn:Ep.
    + split; [|reflexivity]. apply String.eqb_eq in Ep. congruence.
    + split; [reflexivity|]. apply String.eqb_neq in Ep. congruence.
  - split; [reflexivity | discriminate].
Qed.

Lemma generate_qrcode_owner_witness :
  Db_ok Scenario.db0
  /\ qrcode.generate_qrcode Scenario.render
       (QRCodeData.make "S1" 0 "marcar_presenca") Scenario.P2 (mkEnv "r0" 1000)
       Scenario.db0
     = (inl (HTTPException 404 "Class day not found or access denied"),
        Scenario.db0)
  /\ qrcode.generate_qrcode Scenario.render
       (QRCodeData.make "S1" 0 "marcar_presenca") Scenario.P1 (mkEnv "r0" 1000)
       Scenario.db0
     = (inr (QRCodeResponse.make
               (QRCodeData.make "S1" 1000 "marcar_presenca")
               (Some "data:image/png;base64,S1|1000|marcar_presenca")),
        Scenario.db0).
Proof.
  assert (Hok : Db_ok Scenario.db0) by db_ok.
  split; [exact Hok|]. split.
  - apply (generate_qrcode_owner Scenario.render
             (QRCodeData.make "S1" 0 "marcar_presenca") Scenario.P2
             (mkEnv "r0" 1000) Scenario.db0 Hok).
    simpl; discriminate.
  - apply (generate_qrcode_owner Scenario.render
             (QRCodeData.make "S1" 0 "marcar_presenca") Scenario.P1
             (mkEnv "r0" 1000) Scenario.db0 Hok).
    reflexivity.
Defined.

(** * Further properties of the helpers and handlers *)

(** ** QR payloads *)



Lemma parse_qr_string (d : QRCodeData.t) :
  no_pipe (QRCodeData.dia_aula_id d) = true ->
  no_pipe (QRCodeData.action d) = true ->
  parse_qr_data (qr_string d) = inr d.
Proof.
  intros Hi Ha. destruct d as [i t a]; simpl in *.
  unfold parse_qr_data, qr_string; cbn [QRCodeData.dia_aula_id
    QRCodeData.timestamp QRCodeData.action].
  change (i ++ "|" ++ str_int t ++ "|" ++ a)
    with (i ++ String "|" (str_int t ++ String "|" a)).
  rewrite (split_app "|" i _ Hi).
  rewrite (split_app "|" (str_int t) _ (str_int_no_pipe t)).
  rewrite (split_no_sep "|" a Ha).
  rewrite int_of_str_str_int; reflexivity.
Qed.

(** X1. Whatever the action tag, a payload whose session identifier
    and action contain no [|] is decoded by [parse_qr_data] to exactly
    the three fields [generate_qr_code] wrote; hence two such payloads
    that give the same QR string are the same payload. *)
Theorem qr_string_round_trip (d d' : QRCodeData.t) :
  no_pipe (QRCodeData.dia_aula_id d) = true ->
  no_pipe (QRCodeData.action d) = true ->
  parse_qr_data (qr_string d) = inr d
  /\ (no_pipe (QRCodeData.dia_aula_id d') = true ->
      no_pipe (QRCodeData.action d') = true ->
      qr_string d = qr_string d' -> d = d').
Proof.
  intros Hi Ha. split; [apply parse_qr_string; assumption|].
  intros Hi' Ha' E.
  pose proof (parse_qr_string d Hi Ha) as H.
  pose proof (parse_qr_string d' Hi' Ha') as H'.
  rewrite E in H. congruence.
Qed.

Lemma qr_string_round_trip_witness :
  parse_qr_data (qr_string (QRCodeData.make "S1" (-5) "outra_acao"))
  = inr (QRCodeData.make "S1" (-5) "outra_acao").
Proof.
  apply (qr_string_round_trip (QRCodeData.make "S1" (-5) "outra_acao")
           (QRCodeData.make "S1" (-5) "outra_acao")); reflexivity.
Defined.





(** X4. Freshness only decays: a timestamp rejected at some time is
    rejected at every later time and for every shorter window, and one
    accepted is accepted at every earlier time and for every longer
    window. *)
Theorem validate_qr_timestamp_monotone (t now now' m m' : Z) :
  now <= now' -> m' <= m ->
  (validate_qr_timestamp now t m = false ->
   validate_qr_timestamp now' t m' = false)
  /\ (validate_qr_timestamp now' t m' = true ->
      validate_qr_timestamp now t m = true).
Proof.
  unfold validate_qr_timestamp. intros Hn Hm.
  rewrite !Z.leb_gt, !Z.leb_le. split; lia.
Qed.

Lemma validate_qr_timestamp_monotone_witness :
  validate_qr_timestamp 5000 1000 20 = false.
Proof.
  apply (validate_qr_timestamp_monotone 1000 2801 5000 30 20); try lia.
  reflexivity.
Defined.

(** ** Looking an attendance up after marking it *)

Lemma check_attendance_eq dia_aula_id student db :
  Db_ok db ->
  student.check_attendance dia_aula_id student db
  = (inr (match records_of db (Aluno.id student) dia_aula_id with
          | [] =>
              SuccessResponse.make
                ("No attendance record found for class session " ++ dia_aula_id ++ ".")
                None
          | attendance :: _ =>
              SuccessResponse.make
                ("Attendance confirmed for class session " ++ dia_aula_id ++ ".")
                (Some [("dia_aula_id", SuccessResponse.Str dia_aula_id);
                       ("timestamp",
                        SuccessResponse.DateTime (Presenca.timestamp attendance))])
          end), db).
Proof.
  intros [_ _ _ Hu]. unfold student.check_attendance.
  unfold bind at 1, select at 1. unfold bind at 1.
  rewrite (scalar_one_or_none_unique
             (fun p => Some (Presenca.aluno_id p, Presenca.dia_aula_id p)) _
             (Aluno.id student, dia_aula_id)).
  2:{ intros r Hr. apply same_aluno_dia_aula_iff in Hr as [-> ->]; reflexivity. }
  2:{ rewrite keys_total; exact Hu. }
  unfold records_of. rewrite find_filter.
  destruct (filter _ (presenca db)); reflexivity.
Qed.

Lemma records_of_snoc db aluno_id dia_aula_id p :
  records_of (with_presenca db (presenca db ++ [p])) aluno_id dia_aula_id
  = (records_of db aluno_id dia_aula_id
     ++ if same_aluno_dia_aula aluno_id dia_aula_id p then [p] else [])%list.
Proof. unfold records_of; simpl. rewrite filter_app; reflexivity. Qed.

(** X5. On a database that satisfies its constraints,
    [check_attendance] never raises and never writes.  For a student
    without a record for the session it answers "No attendance record
    found"; right after the student's mark-attendance call for the
    session is accepted it answers "Attendance confirmed" with the time
    of that call. *)
Theorem check_attendance_after_mark data student env db :
  Db_ok db ->
  let dia_aula_id := AttendanceRequest.dia_aula_id data in
  (records_of db (Aluno.id student) dia_aula_id = [] ->
   student.check_attendance dia_aula_id student db
   = (inr (SuccessResponse.make
             ("No attendance record found for class session " ++ dia_aula_id ++ ".")
             None), db))
  /\ (forall r,
        fst (attendance.mark_attendance data student env db) = inr r ->
        let db' := snd (attendance.mark_attendance data student env db) in
        student.check_attendance dia_aula_id student db'
        = (inr (SuccessResponse.make
                  ("Attendance confirmed for class session " ++ dia_aula_id ++ ".")
                  (Some [("dia_aula_id", SuccessResponse.Str dia_aula_id);
                         ("timestamp", SuccessResponse.DateTime (now env))])),
           db')).
Proof.
  intros Hok; cbv zeta. split.
  - intros Hn. rewrite (check_attendance_eq _ _ _ Hok), Hn. reflexivity.
  - intros r Hr.
    set (db' := snd (attendance.mark_attendance data student env db)).
    pose proof (run_outcome (mkCall data student env) db Hok) as Ho.
    pose proof (run_Db_ok (mkCall data student env) db Hok) as Hok'.
    unfold run in Ho, Hok'; simpl in Ho, Hok'. fold db' in Hok'.
    subst db'.
    remember (attendance.mark_attendance data student env db) as o eqn:Eo.
    destruct Ho as [e|dia Ha Hs He Hn Hx]; [discriminate Hr|].
    simpl in *. rewrite (check_attendance_eq _ _ _ Hok').
    rewrite records_of_snoc, Hn. unfold same_aluno_dia_aula; simpl.
    rewrite !String.eqb_refl. reflexivity.
Qed.

Lemma check_attendance_after_mark_witness :
  student.check_attendance "S1" Scenario.U1
    (snd (attendance.mark_attendance Scenario.scan_S1 Scenario.U1
            (mkEnv "r1" 1500) Scenario.db0))
  = (inr (SuccessResponse.make "Attendance confirmed for class session S1."
            (Some [("dia_aula_id", SuccessResponse.Str "S1");
                   ("timestamp", SuccessResponse.DateTime 1500)])),
     snd (attendance.mark_attendance Scenario.scan_S1 Scenario.U1
            (mkEnv "r1" 1500) Scenario.db0)).
Proof.
  assert (Hok : Db_ok Scenario.db0) by db_ok.
  destruct (check_attendance_after_mark Scenario.scan_S1 Scenario.U1
              (mkEnv "r1" 1500) Scenario.db0 Hok) as [_ H].
  apply (H (AttendanceResponse.make "r1" "U1" "S1" 1500 None None)).
  reflexivity.
Defined.

(** ** The ledger over a sequence of calls *)

Lemma session_tables db db' :
  dia_de_aula db' = dia_de_aula db -> session db' = session db.
Proof. intros H; unfold session; rewrite H; reflexivity. Qed.

Lemma enrolled_tables db db' :
  integrante_da_turma db' = integrante_da_turma db ->
  enrolled_as_student db' = enrolled_as_student db.
Proof. intros H; unfold enrolled_as_student; rewrite H; reflexivity. Qed.

(** X6. The ledger is append-only under mark-attendance calls: after
    any sequence of calls the attendance table is the old one followed
    by new rows, at most one per call; every new row names an existing
    session and a student enrolled in the class of that session; and
    the session and membership tables are untouched. *)
Theorem exec_appends (cs : list Call) (db : Db) :
  Db_ok db ->
  exists new,
    presenca (exec cs db) = (presenca db ++ new)%list
    /\ (List.length new <= List.length cs)%nat
    /\ Forall (fun p =>
                 exists dia_aula,
                   session db (Presenca.dia_aula_id p) = Some dia_aula
                   /\ enrolled_as_student db (DiaDeAula.turma_id dia_aula)
                        (Presenca.aluno_id p) = true) new
    /\ dia_de_aula (exec cs db) = dia_de_aula db
    /\ integrante_da_turma (exec cs db) = integrante_da_turma db.
Proof.
  revert db; induction cs as [|c cs IH]; intros db Hok.
  - exists []. simpl. rewrite app_nil_r. repeat split; auto.
  - simpl exec.
    pose proof (run_outcome c db Hok) as Ho.
    pose proof (run_Db_ok c db Hok) as Hok1.
    change (exec (c :: cs) db) with (exec cs (snd (run c db))).
    remember (run c db) as o eqn:Eo.
    destruct Ho as [e|dia Ha Hs He Hn Hx]; simpl snd in *.
    + destruct (IH db Hok) as (new & Hp & Hl & Hf & Hd & Hi).
      exists new. repeat split; auto. simpl; lia.
    + set (p := new_attendance (call_data c) (call_student c) (call_env c)) in *.
      destruct (IH _ Hok1) as (new & Hp & Hl & Hf & Hd & Hi).
      exists (p :: new). simpl in Hp, Hd, Hi.
      split; [rewrite Hp, <- app_assoc; reflexivity|].
      split; [simpl; lia|].
      split; [|split; assumption].
      constructor; [exists dia; split; assumption | exact Hf].
Qed.

Lemma exec_appends_witness :
  exists new,
    presenca (exec [Calls.first_scan; Calls.outsider_scan; Calls.second_scan]
                Scenario.db0) = (presenca Scenario.db0 ++ new)%list
    /\ (List.length new <= 3)%nat.
Proof.
  assert (Hok : Db_ok Scenario.db0) by db_ok.
  destruct (exec_appends [Calls.first_scan; Calls.outsider_scan; Calls.second_scan]
              Scenario.db0 Hok) as (new & Hp & Hl & _).
  exists new; split; assumption.
Defined.

(** X7. Students do not get in each other's way: a call by another
    student, or for another session, made just before does not change
    the answer a call gets, as long as the two record identifiers
    differ. *)
Theorem other_call_no_interference (c1 c2 : Call) (db : Db) :
  Db_ok db ->
  Aluno.id (call_student c1) <> Aluno.id (call_student c2)
  \/ AttendanceRequest.dia_aula_id (call_data c1)
     <> AttendanceRequest.dia_aula_id (call_data c2) ->
  uuid4 (call_env c1) <> uuid4 (call_env c2) ->
  fst (run c2 (snd (run c1 db))) = fst (run c2 db).
Proof.
  intros Hok Hdiff Hid.
  pose proof (run_outcome c1 db Hok) as Ho.
  pose proof (run_Db_ok c1 db Hok) as Hok1.
  remember (run c1 db) as o eqn:Eo.
  destruct Ho as [e|dia Ha Hs He Hn Hx]; simpl snd in *; [reflexivity|].
  set (p := new_attendance (call_data c1) (call_student c1) (call_env c1)) in *.
  unfold run. rewrite (mark_attendance_eq _ _ _ _ Hok1), (mark_attendance_eq _ _ _ _ Hok).
  rewrite records_of_snoc.
  assert (Hp : same_aluno_dia_aula (Aluno.id (call_student c2))
                 (AttendanceRequest.dia_aula_id (call_data c2)) p = false).
  { apply not_true_is_false. intros H.
    apply same_aluno_dia_aula_iff in H as [H1 H2]. simpl in H1, H2.
    destruct Hdiff as [Hd|Hd]; apply Hd; assumption. }
  rewrite Hp, app_nil_r.
  change (session (with_presenca db (presenca db ++ [p]))) with (session db).
  change (enrolled_as_student (with_presenca db (presenca db ++ [p])))
    with (enrolled_as_student db).
  clear Eo Ha Hs He Hn Hok1.
  destruct (negb (String.eqb (AttendanceRequest.action (call_data c2)) _));
    [reflexivity|].
  destruct (session db (AttendanceRequest.dia_aula_id (call_data c2)));
    [|reflexivity].
  destruct (negb (enrolled_as_student db _ (Aluno.id (call_student c2))));
    [reflexivity|].
  destruct (records_of db (Aluno.id (call_student c2)) _); [|reflexivity].
  simpl presenca. rewrite existsb_app. simpl existsb.
  assert (String.eqb (uuid4 (call_env c1)) (uuid4 (call_env c2)) = false) as ->
    by (apply String.eqb_neq; exact Hid).
  rewrite !orb_false_r. clear Hx.
  destruct (existsb _ (presenca db)); reflexivity.
Qed.

Lemma other_call_no_interference_witness :
  fst (run Calls.outsider_scan (snd (run Calls.first_scan Scenario.db0)))
  = fst (run Calls.outsider_scan Scenario.db0).
Proof.
  apply (other_call_no_interference Calls.first_scan Calls.outsider_scan
           Scenario.db0).
  - db_ok.
  - left; simpl; discriminate.
  - simpl; discriminate.
Defined.

(** ** Joining and leaving a class *)

Lemma select_scalar_unique {T K} (table : Db -> list T) (key : T -> option K)
    (test : T -> bool) (k : K) {B} (cont : option T -> M B) db :
  (forall r, test r = true -> key r = Some k) ->
  NoDup (keys key (table db)) ->
  bind (select table test) (fun rows => bind (scalar_one_or_none rows) cont) db
  = cont (find test (table db)) db.
Proof.
  intros Hk Hnd. rewrite select_run. unfold bind.
  rewrite (scalar_one_or_none_unique key test k Hk _ _ Hnd). reflexivity.
Qed.

Lemma is_enrollment_key turma_id aluno_id r :
  is_enrollment turma_id aluno_id r = true ->
  option_map (pair (IntegranteDaTurma.turma_id r)) (IntegranteDaTurma.aluno_id r)
  = Some (turma_id, aluno_id).
Proof.
  unfold is_enrollment. intros Hr. apply andb_true_iff in Hr as [Hr _].
  apply andb_true_iff in Hr as [Ht Ha]. apply String.eqb_eq in Ht.
  unfold col_eq in Ha. destruct (IntegranteDaTurma.aluno_id r); [|discriminate].
  apply String.eqb_eq in Ha; subst; reflexivity.
Qed.

Lemma enrolled_is_enrollment db turma_id aluno_id :
  enrolled_as_student db turma_id aluno_id
  = existsb (is_enrollment turma_id aluno_id) (integrante_da_turma db).
Proof. reflexivity. Qed.

Lemma join_turma_eq turma_id student new_id db :
  Db_ok db -> Schema_ok db ->
  student.join_turma turma_id student new_id db =
  match find (fun t => String.eqb (Turma.id t) turma_id) (turma db) with
  | None => (inl (HTTPException 404 "Class not found"), db)
  | Some t =>
      if enrolled_as_student db turma_id (Aluno.id student) then
        (inl (HTTPException 409 "Already enrolled in this class"), db)
      else if existsb (fun r => Z.eqb (IntegranteDaTurma.id r) new_id)
                (integrante_da_turma db)
      then (inl IntegrityError, db)
      else (inr (SuccessResponse.make "Successfully joined the class"
                   (Some [("turma_id", SuccessResponse.Str turma_id);
                          ("turma_nome", SuccessResponse.Str (Turma.nome_turma t))])),
            with_integrante db
              (integrante_da_turma db
               ++ [new_enrollment turma_id (Aluno.id student) new_id]))
  end.
Proof.
  intros [_ Hi _ _] [Ht _ _ Hc].
  unfold student.join_turma.
  rewrite (select_scalar_unique turma (fun t => Some (Turma.id t)) _ turma_id).
  2:{ intros r Hr; apply String.eqb_eq in Hr; rewrite Hr; reflexivity. }
  2:{ rewrite keys_total; exact Ht. }
  destruct (find _ (turma db)) as [t|] eqn:Ef; [|reflexivity].
  change (fun i : IntegranteDaTurma.t =>
            (String.eqb (IntegranteDaTurma.turma_id i) turma_id
             && col_eq (IntegranteDaTurma.aluno_id i) (Aluno.id student)
             && String.eqb (IntegranteDaTurma.tipo i) "aluno")%bool)
    with (is_enrollment turma_id (Aluno.id student)).
  rewrite (select_scalar_unique integrante_da_turma
             (fun i => option_map (pair (IntegranteDaTurma.turma_id i))
                         (IntegranteDaTurma.aluno_id i))
             _ (turma_id, Aluno.id student)).
  2:{ apply is_enrollment_key. }
  2:{ exact Hi. }
  rewrite enrolled_is_enrollment, existsb_find.
  destruct (find (is_enrollment _ _) _) eqn:Ee; [reflexivity|].
  unfold bind, add_commit_integrante, ret.
  fold (new_enrollment turma_id (Aluno.id student) new_id).
  assert (Hm : existsb (same_turma_member
                          (new_enrollment turma_id (Aluno.id student) new_id))
                 (integrante_da_turma db) = false).
  { apply not_true_is_false. intros Hex.
    apply existsb_exists in Hex as (r & Hin & Hr).
    unfold same_turma_member, new_enrollment in Hr; simpl in Hr.
    apply andb_true_iff in Hr as [Hrt Hra].
    pose proof (proj1 (Forall_forall _ _) Hc r Hin) as Hchk.
    assert (is_enrollment turma_id (Aluno.id student) r = true) as Hen.
    { unfold is_enrollment. rewrite Hrt, Hra. simpl.
      unfold check_integrante_logic in Hchk. unfold col_eq in Hra.
      destruct (IntegranteDaTurma.aluno_id r); [|discriminate].
      destruct (IntegranteDaTurma.professor_id r); [discriminate|exact Hchk]. }
    pose proof (find_none _ _ Ee r Hin) as Hnone. congruence. }
  rewrite Hm.
  assert (Hfk : existsb (fun t0 => String.eqb (Turma.id t0) turma_id) (turma db) = true).
  { rewrite existsb_find, Ef; reflexivity. }
  simpl IntegranteDaTurma.id. simpl IntegranteDaTurma.turma_id.
  rewrite Hfk. simpl check_integrante_logic.
  rewrite !orb_false_r. clear Hm.
  destruct (existsb (fun r => Z.eqb (IntegranteDaTurma.id r) new_id)
              (integrante_da_turma db)); reflexivity.
Qed.

Lemma keys_app {T K} (key : T -> option K) l1 l2 :
  keys key (l1 ++ l2) = (keys key l1 ++ keys key l2)%list.
Proof. unfold keys; apply flat_map_app. Qed.

Lemma join_turma_ok turma_id aluno_id new_id db :
  Db_ok db -> Schema_ok db ->
  enrolled_as_student db turma_id aluno_id = false ->
  existsb (fun r => Z.eqb (IntegranteDaTurma.id r) new_id) (integrante_da_turma db)
  = false ->
  let db' := with_integrante db
               (integrante_da_turma db ++ [new_enrollment turma_id aluno_id new_id]) in
  Db_ok db' /\ Schema_ok db'.
Proof.
  intros [Hd Hi Hp Hu] [Ht Hk Hup Hc] He Hx db'. split; constructor; simpl; auto.
  - rewrite keys_app; simpl. apply NoDup_snoc; [exact Hi|].
    intros Hin. unfold keys in Hin. apply in_flat_map in Hin as (r & Hr & Hkr).
    pose proof (proj1 (Forall_forall _ _) Hc r Hr) as Hchk.
    assert (is_enrollment turma_id aluno_id r = true) as Hen.
    { unfold is_enrollment, check_integrante_logic, col_eq in *.
      destruct (IntegranteDaTurma.aluno_id r) as [a|]; simpl in Hkr; [|destruct Hkr].
      destruct Hkr as [Hkr|[]]. injection Hkr as -> ->.
      destruct (IntegranteDaTurma.professor_id r); [discriminate|].
      rewrite !String.eqb_refl, Hchk; reflexivity. }
    rewrite enrolled_is_enrollment in He.
    assert (existsb (is_enrollment turma_id aluno_id) (integrante_da_turma db) = true)
      by (apply existsb_exists; exists r; auto).
    congruence.
  - rewrite map_app; simpl. apply NoDup_snoc; [exact Hk|].
    apply (existsb_false_notin IntegranteDaTurma.id Z.eqb); [apply Z.eqb_eq|exact Hx].
  - rewrite keys_app; simpl. rewrite app_nil_r. exact Hup.
  - apply Forall_app; split; [exact Hc|]. repeat constructor.
Qed.

(** X8. Joining a class, on a database that satisfies its
    constraints.  A successful [join_turma] adds one membership row and
    nothing else: the student is then enrolled in the class, the
    constraints still hold, sessions and attendance records are
    untouched, and joining again is rejected with 409 "Already enrolled
    in this class" whatever row id the database would give. *)
Theorem join_turma_enrolls turma_id student new_id db r db' :
  Db_ok db -> Schema_ok db ->
  student.join_turma turma_id student new_id db = (inr r, db') ->
  db' = with_integrante db
          (integrante_da_turma db
           ++ [new_enrollment turma_id (Aluno.id student) new_id])
  /\ Db_ok db' /\ Schema_ok db'
  /\ enrolled_as_student db' turma_id (Aluno.id student) = true
  /\ (forall new_id',
        student.join_turma turma_id student new_id' db'
        = (inl (HTTPException 409 "Already enrolled in this class"), db')).
Proof.
  intros Hok Hsc Hj. rewrite (join_turma_eq _ _ _ _ Hok Hsc) in Hj.
  destruct (find _ (turma db)) as [t|] eqn:Ef; [|discriminate Hj].
  destruct (enrolled_as_student db turma_id (Aluno.id student)) eqn:Ee;
    [discriminate Hj|].
  destruct (existsb _ (integrante_da_turma db)) eqn:Ex; [discriminate Hj|].
  injection Hj as _ <-.
  destruct (join_turma_ok turma_id (Aluno.id student) new_id db Hok Hsc Ee Ex)
    as [Hok' Hsc'].
  assert (Hen : enrolled_as_student
                  (with_integrante db
                     (integrante_da_turma db
                      ++ [new_enrollment turma_id (Aluno.id student) new_id]))
                  turma_id (Aluno.id student) = true).
  { unfold enrolled_as_student; simpl. rewrite existsb_app; simpl.
    rewrite !String.eqb_refl. simpl. apply orb_true_r. }
  split; [reflexivity|]. split; [exact Hok'|]. split; [exact Hsc'|].
  split; [exact Hen|].
  intros new_id'. rewrite (join_turma_eq _ _ _ _ Hok' Hsc').
  simpl turma. rewrite Ef, Hen. reflexivity.
Qed.

Lemma join_turma_enrolls_witness :
  enrolled_as_student
    (snd (student.join_turma "C1" Scenario.U2 3 Scenario.db0)) "C1" "U2" = true
  /\ student.join_turma "C1" Scenario.U2 4
       (snd (student.join_turma "C1" Scenario.U2 3 Scenario.db0))
     = (inl (HTTPException 409 "Already enrolled in this class"),
        snd (student.join_turma "C1" Scenario.U2 3 Scenario.db0)).
Proof.
  assert (Hok : Db_ok Scenario.db0) by db_ok.
  assert (Hsc : Schema_ok Scenario.db0) by db_ok.
  destruct (join_turma_enrolls "C1" Scenario.U2 3 Scenario.db0
              (SuccessResponse.make "Successfully joined the class"
                 (Some [("turma_id", SuccessResponse.Str "C1");
                        ("turma_nome", SuccessResponse.Str "BD-2024-1")]))
              (snd (student.join_turma "C1" Scenario.U2 3 Scenario.db0))
              Hok Hsc eq_refl) as (_ & _ & _ & He & Hj).
  split; [exact He | apply Hj].
Defined.

(** X9. Joining opens the enrollment gate: once [join_turma] has
    succeeded for a class, the student's mark-attendance call for any
    session of that class, with the right action, no earlier record
    and an unused record identifier, is accepted and stores its record;
    it is never answered NotEnrolled. *)
Theorem join_then_mark turma_id student new_id db r db' data env dia_aula :
  Db_ok db -> Schema_ok db ->
  student.join_turma turma_id student new_id db = (inr r, db') ->
  AttendanceRequest.action data = "marcar_presenca" ->
  session db (AttendanceRequest.dia_aula_id data) = Some dia_aula ->
  DiaDeAula.turma_id dia_aula = turma_id ->
  records_of db (Aluno.id student) (AttendanceRequest.dia_aula_id data) = [] ->
  ~ In (uuid4 env) (map Presenca.id (presenca db)) ->
  attendance.mark_attendance data student env db'
  = (inr (AttendanceResponse.from_orm (new_attendance data student env)),
     with_presenca db' (presenca db' ++ [new_attendance data student env])).
Proof.
  intros Hok Hsc Hj Ha Hs Ht Hn Hx.
  rewrite (join_turma_eq _ _ _ _ Hok Hsc) in Hj.
  destruct (find _ (turma db)) as [t|] eqn:Ef; [|discriminate Hj].
  destruct (enrolled_as_student db turma_id (Aluno.id student)) eqn:Ee;
    [discriminate Hj|].
  destruct (existsb _ (integrante_da_turma db)) eqn:Ex; [discriminate Hj|].
  injection Hj as _ <-.
  destruct (join_turma_ok turma_id (Aluno.id student) new_id db Hok Hsc Ee Ex)
    as [Hok' _].
  rewrite (mark_attendance_eq _ _ _ _ Hok'), Ha. simpl negb. cbv iota.
  change (session (with_integrante db _)) with (session db). rewrite Hs, Ht.
  assert (Hen : enrolled_as_student
                  (with_integrante db
                     (integrante_da_turma db
                      ++ [new_enrollment turma_id (Aluno.id student) new_id]))
                  turma_id (Aluno.id student) = true).
  { unfold enrolled_as_student; simpl. rewrite existsb_app; simpl.
    rewrite !String.eqb_refl. simpl. apply orb_true_r. }
  rewrite Hen. simpl negb. cbv iota.
  change (records_of (with_integrante db _)) with (records_of db). rewrite Hn.
  simpl presenca.
  destruct (existsb (fun q => String.eqb (Presenca.id q) (uuid4 env)) (presenca db))
    eqn:Eu; [|reflexivity].
  exfalso; apply Hx. apply existsb_exists in Eu as (q & Hq & Hid).
  apply String.eqb_eq in Hid. apply in_map_iff; exists q; auto.
Qed.

Lemma join_then_mark_witness :
  fst (attendance.mark_attendance Scenario.scan_S1 Scenario.U2 (mkEnv "r3" 1550)
         (snd (student.join_turma "C1" Scenario.U2 3 Scenario.db0)))
  = inr (AttendanceResponse.make "r3" "U2" "S1" 1550 None None).
Proof.
  assert (Hok : Db_ok Scenario.db0) by db_ok.
  assert (Hsc : Schema_ok Scenario.db0) by db_ok.
  rewrite (join_then_mark "C1" Scenario.U2 3 Scenario.db0
             (SuccessResponse.make "Successfully joined the class"
                (Some [("turma_id", SuccessResponse.Str "C1");
                       ("turma_nome", SuccessResponse.Str "BD-2024-1")]))
             (snd (student.join_turma "C1" Scenario.U2 3 Scenario.db0))
             Scenario.scan_S1 (mkEnv "r3" 1550)
             (DiaDeAula.make "S1" "C1" 900 false "P1")
             Hok Hsc eq_refl eq_refl eq_refl eq_refl eq_refl).
  - reflexivity.
  - simpl; tauto.
Defined.

Lemma owner_check_eq class_id professor db :
  Schema_ok db ->
  classes.owner_check class_id professor db
  = if owns_class db class_id (Professor.id professor) then (inr tt, db)
    else (inl (HTTPException 403 "You do not own this class"), db).
Proof.
  intros [_ _ Hup _]. unfold classes.owner_check.
  rewrite (select_scalar_unique integrante_da_turma
             (fun i => option_map (pair (IntegranteDaTurma.turma_id i))
                         (IntegranteDaTurma.professor_id i))
             _ (class_id, Professor.id professor)).
  2:{ intros r Hr. apply andb_true_iff in Hr as [Hr _].
      apply andb_true_iff in Hr as [Ht Hp]. apply String.eqb_eq in Ht.
      unfold col_eq in Hp. destruct (IntegranteDaTurma.professor_id r); [|discriminate].
      apply String.eqb_eq in Hp; subst; reflexivity. }
  2:{ exact Hup. }
  unfold owns_class. rewrite existsb_find.
  destruct (find _ (integrante_da_turma db)); reflexivity.
Qed.

Lemma owner_check_run class_id professor {B} (k : M B) db :
  Schema_ok db ->
  bind (classes.owner_check class_id professor) (fun _ => k) db
  = if owns_class db class_id (Professor.id professor) then k db
    else (inl (HTTPException 403 "You do not own this class"), db).
Proof.
  intros Hsc. unfold bind at 1. rewrite (owner_check_eq _ _ _ Hsc).
  destruct (owns_class _ _ _); reflexivity.
Qed.

Lemma filter_filter_comm {T} (f g : T -> bool) l :
  filter f (filter g l) = filter g (filter f l).
Proof.
  induction l as [|a l IH]; simpl; [reflexivity|].
  destruct (f a) eqn:Ef, (g a) eqn:Eg; simpl; rewrite ?Ef, ?Eg, IH; reflexivity.
Qed.

Lemma find_some_filter {T K} (key : T -> option K) (test : T -> bool) k rows i :
  (forall r, test r = true -> key r = Some k) ->
  NoDup (keys key rows) ->
  find test rows = Some i -> filter test rows = [i].
Proof.
  intros Hk Hnd Hf.
  pose proof (filter_length_unique key test k rows Hk Hnd) as Hl.
  rewrite find_filter in Hf.
  destruct (filter test rows) as [|a [|b l]]; simpl in *;
    [discriminate | congruence | lia].
Qed.

(** X10. Removing a student from a class, on a database that satisfies
    its constraints.  After a successful [remove_student_from_class] the
    student is no longer enrolled in that class, every other enrollment
    is as before, and the attendance records and sessions are untouched
    (the records the student already has stay in the ledger); from then
    on the student's mark-attendance call for a session of that class,
    with the right action, is rejected with NotEnrolled. *)
Theorem remove_student_effect class_id student_id professor db m db' :
  Db_ok db -> Schema_ok db ->
  classes.remove_student_from_class class_id student_id professor db = (inr m, db') ->
  enrolled_as_student db' class_id student_id = false
  /\ (forall turma_id aluno_id,
        (turma_id, aluno_id) <> (class_id, student_id) ->
        enrolled_as_student db' turma_id aluno_id
        = enrolled_as_student db turma_id aluno_id)
  /\ presenca db' = presenca db
  /\ dia_de_aula db' = dia_de_aula db
  /\ (forall data student env dia_aula,
        Aluno.id student = student_id ->
        AttendanceRequest.action data = "marcar_presenca" ->
        session db (AttendanceRequest.dia_aula_id data) = Some dia_aula ->
        DiaDeAula.turma_id dia_aula = class_id ->
        attendance.mark_attendance data student env db' = (inl NotEnrolled, db')).
Proof.
  intros Hok Hsc Hr.
  unfold classes.remove_student_from_class in Hr.
  rewrite (owner_check_run _ _ _ _ Hsc) in Hr.
  destruct (owns_class db class_id (Professor.id professor)); [|discriminate Hr].
  change (fun i : IntegranteDaTurma.t =>
            (String.eqb (IntegranteDaTurma.turma_id i) class_id
             && col_eq (IntegranteDaTurma.aluno_id i) student_id
             && String.eqb (IntegranteDaTurma.tipo i) "aluno")%bool)
    with (is_enrollment class_id student_id) in Hr.
  destruct Hok as [Hd Hi Hp Hu].
  rewrite (select_scalar_unique integrante_da_turma
             (fun i => option_map (pair (IntegranteDaTurma.turma_id i))
                         (IntegranteDaTurma.aluno_id i))
             _ (class_id, student_id) _ _ (is_enrollment_key _ _) Hi) in Hr.
  destruct (find (is_enrollment class_id student_id) (integrante_da_turma db))
    as [i|] eqn:Ef; [|discriminate Hr].
  unfold bind, delete_commit_integrante, ret in Hr. injection Hr as _ <-.
  pose proof (find_some_filter _ _ _ _ _ (is_enrollment_key class_id student_id) Hi Ef)
    as Hfi.
  set (keep := fun r => negb (Z.eqb (IntegranteDaTurma.id r) (IntegranteDaTurma.id i))).
  assert (Hgone : enrolled_as_student
                    (mkDb (turma db) (dia_de_aula db)
                       (filter keep (integrante_da_turma db)) (presenca db))
                    class_id student_id = false).
  { rewrite enrolled_is_enrollment; simpl. rewrite existsb_filter.
    rewrite filter_filter_comm, Hfi. simpl. unfold keep.
    rewrite Z.eqb_refl. reflexivity. }
  assert (Hother : forall turma_id aluno_id,
             (turma_id, aluno_id) <> (class_id, student_id) ->
             enrolled_as_student
               (mkDb (turma db) (dia_de_aula db)
                  (filter keep (integrante_da_turma db)) (presenca db))
               turma_id aluno_id
             = enrolled_as_student db turma_id aluno_id).
  { intros t a Hne. rewrite !enrolled_is_enrollment; simpl.
    destruct (existsb (is_enrollment t a) (integrante_da_turma db)) eqn:Ex.
    - apply existsb_exists in Ex as (r & Hin & Hr).
      apply existsb_exists. exists r. split; [|exact Hr].
      apply filter_In; split; [exact Hin|]. unfold keep.
      apply negb_true_iff, Z.eqb_neq. intros Hid.
      destruct Hsc as [_ Hk _ _].
      assert (r = i) as ->.
      { apply find_some in Ef as [Hini _].
        clear - Hk Hin Hini Hid.
        induction (integrante_da_turma db) as [|x l IH]; [destruct Hin|].
        simpl in Hk. apply NoDup_cons_iff in Hk as [Hx Hk].
        destruct Hin as [->|Hin], Hini as [->|Hini]; auto.
        - exfalso; apply Hx. rewrite Hid. apply in_map; exact Hini.
        - exfalso; apply Hx. rewrite <- Hid. apply in_map; exact Hin. }
      apply find_some in Ef as [_ Hei].
      apply is_enrollment_key in Hr. apply is_enrollment_key in Hei.
      rewrite Hr in Hei. apply Hne. injection Hei as -> ->. reflexivity.
    - apply not_true_is_false. intros Hex.
      apply existsb_exists in Hex as (r & Hin & Hr).
      apply filter_In in Hin as [Hin _].
      assert (existsb (is_enrollment t a) (integrante_da_turma db) = true)
        by (apply existsb_exists; exists r; auto).
      congruence. }
  split; [exact Hgone|]. split; [exact Hother|].
  split; [reflexivity|]. split; [reflexivity|].
  intros data student env dia Hst Ha Hs Ht.
  assert (Hok' : Db_ok (mkDb (turma db) (dia_de_aula db)
                          (filter keep (integrante_da_turma db)) (presenca db))).
  { constructor; simpl; auto.
    clear - Hi. induction (integrante_da_turma db) as [|x l IH]; simpl; [constructor|].
    unfold keys in *; simpl in Hi.
    apply NoDup_app_remove_l in Hi as Hl. specialize (IH Hl).
    destruct (keep x); simpl; [|exact IH].
    destruct (option_map _ _) as [k|]; simpl in *; [|exact IH].
    apply NoDup_cons_iff in Hi as [Hx _]. constructor; [|exact IH].
    intros Hin; apply Hx. apply in_flat_map in Hin as (r & Hr & Hkr).
    apply in_flat_map. exists r. split; [|exact Hkr].
    apply filter_In in Hr as [Hr _]; exact Hr. }
  rewrite (mark_attendance_eq _ _ _ _ Hok'), Ha. simpl negb. cbv iota.
  change (session (mkDb (turma db) (dia_de_aula db) _ (presenca db)))
    with (session db).
  rewrite Hs, Ht, Hst, Hgone. reflexivity.
Qed.

Lemma remove_student_effect_witness :
  enrolled_as_student
    (snd (classes.remove_student_from_class "C1" "U1" Scenario.P1 Scenario.db0))
    "C1" "U1" = false
  /\ attendance.mark_attendance Scenario.scan_S1 Scenario.U1 (mkEnv "r1" 1500)
       (snd (classes.remove_student_from_class "C1" "U1" Scenario.P1 Scenario.db0))
     = (inl NotEnrolled,
        snd (classes.remove_student_from_class "C1" "U1" Scenario.P1 Scenario.db0)).
Proof.
  assert (Hok : Db_ok Scenario.db0) by db_ok.
  assert (Hsc : Schema_ok Scenario.db0) by db_ok.
  destruct (remove_student_effect "C1" "U1" Scenario.P1 Scenario.db0
              "Student removed from class"
              (snd (classes.remove_student_from_class "C1" "U1" Scenario.P1
                      Scenario.db0))
              Hok Hsc eq_refl) as (H1 & _ & _ & _ & H5).
  split; [exact H1|].
  apply (H5 Scenario.scan_S1 Scenario.U1 (mkEnv "r1" 1500)
            (DiaDeAula.make "S1" "C1" 900 false "P1")); reflexivity.
Defined.

(** ** Students not in a class *)

Lemma filter_none {T} (f : T -> bool) l :
  (forall a, In a l -> f a = false) -> filter f l = [].
Proof.
  induction l as [|a l IH]; simpl; [reflexivity|]. intros H.
  rewrite (H a (or_introl eq_refl)). apply IH. intros b Hb; apply H; right; exact Hb.
Qed.

(** X11. Under the check constraint of the membership table,
    [list_students_not_in_class] answers the owner of a class with the
    empty list, whatever students exist: the subquery of the [NOT IN]
    returns the [aluno_id] of every member of the class, the
    professor's own row has a NULL there, and a [NOT IN] over a list
    with a NULL is never true.  A professor who does not own the class
    gets 403. *)
Theorem list_students_not_in_class_empty aluno_table class_id professor db :
  Schema_ok db ->
  classes.list_students_not_in_class aluno_table class_id professor db
  = if owns_class db class_id (Professor.id professor) then (inr [], db)
    else (inl (HTTPException 403 "You do not own this class"), db).
Proof.
  intros Hsc. unfold classes.list_students_not_in_class.
  rewrite (owner_check_run _ _ _ _ Hsc).
  destruct (owns_class db class_id (Professor.id professor)) eqn:Eo; [|reflexivity].
  rewrite select_run. unfold ret. f_equal. f_equal.
  replace (filter _ aluno_table) with (@nil Aluno.t); [reflexivity|].
  symmetry. apply filter_none. intros a _.
  unfold owns_class in Eo. apply existsb_exists in Eo as (i & Hin & Hi).
  apply andb_true_iff in Hi as [Hi Htipo]. apply andb_true_iff in Hi as [Ht Hp].
  destruct Hsc as [_ _ _ Hc].
  pose proof (proj1 (Forall_forall _ _) Hc i Hin) as Hchk.
  assert (Hnull : IntegranteDaTurma.aluno_id i = None).
  { unfold check_integrante_logic, col_eq in *.
    destruct (IntegranteDaTurma.professor_id i); [|discriminate Hp].
    destruct (IntegranteDaTurma.aluno_id i); [discriminate Hchk | reflexivity]. }
  unfold sql_not_in.
  destruct (existsb (fun m => col_eq m (Aluno.id a)) _); [reflexivity|].
  assert (existsb (fun m : option string =>
                     match m with None => true | Some _ => false end)
            (map IntegranteDaTurma.aluno_id
               (filter (fun i => String.eqb (IntegranteDaTurma.turma_id i) class_id)
                       (integrante_da_turma db))) = true) as ->; [|reflexivity].
  apply existsb_exists. exists None. split; [|reflexivity].
  rewrite <- Hnull. apply in_map. apply filter_In. split; assumption.
Qed.

Lemma list_students_not_in_class_empty_witness :
  classes.list_students_not_in_class [Scenario.U1; Scenario.U2] "C1" Scenario.P1
    Scenario.db0
  = (inr [], Scenario.db0).
Proof.
  apply (list_students_not_in_class_empty [Scenario.U1; Scenario.U2] "C1"
           Scenario.P1 Scenario.db0).
  db_ok.
Defined.

(** ** QR codes *)

Lemma filter_in_session {g : DiaDeAula.t -> bool} rows dia_aula_id d l :
  filter (fun d => String.eqb (DiaDeAula.id d) dia_aula_id && g d)%bool rows = d :: l ->
  In d rows /\ DiaDeAula.id d = dia_aula_id.
Proof.
  intros Hf.
  assert (In d (filter (fun d => String.eqb (DiaDeAula.id d) dia_aula_id && g d)%bool
                  rows)) as Hin by (rewrite Hf; left; reflexivity).
  apply filter_In in Hin as [Hin Ht]. apply andb_true_iff in Ht as [Ht _].
  apply String.eqb_eq in Ht. split; assumption.
Qed.

(** X12. Whichever of the three QR endpoints answers, and whoever
    asked, the answer is the same function of the session and the clock:
    the fields [(dia_aula_id, now, "marcar_presenca")] and the image of
    the string minted from them.  The database is left as it was, the
    session exists, and when its identifier holds no [|] the string of
    the QR code decodes back to the three fields. *)
Theorem qr_endpoints_token render class_id data professor env h db resp db' :
  In h (qr_endpoints render class_id data professor env) ->
  h db = (inr resp, db') ->
  let dia_aula_id := QRCodeData.dia_aula_id data in
  db' = db
  /\ resp = QRCodeResponse.make
              (QRCodeData.make dia_aula_id (now env) "marcar_presenca")
              (Some ("data:image/png;base64," ++ render (mint dia_aula_id (now env))))
  /\ (exists d, In d (dia_de_aula db) /\ DiaDeAula.id d = dia_aula_id)
  /\ (no_pipe dia_aula_id = true ->
      parse_qr_data (qr_string (QRCodeResponse.qr_data resp))
      = inr (QRCodeData.make dia_aula_id (now env) "marcar_presenca")).
Proof.
  intros Hin Hh; cbv zeta.
  assert (Hcore : db' = db
            /\ resp = QRCodeResponse.make
                        (QRCodeData.make (QRCodeData.dia_aula_id data) (now env)
                           "marcar_presenca")
                        (Some ("data:image/png;base64,"
                               ++ render (mint (QRCodeData.dia_aula_id data) (now env))))
            /\ (exists d, In d (dia_de_aula db)
                          /\ DiaDeAula.id d = QRCodeData.dia_aula_id data)).
  { destruct Hin as [<-|[<-|[<-|[]]]].
    - unfold qrcode.generate_qrcode in Hh. rewrite select_run, scalar_run in Hh.
      destruct (filter _ (dia_de_aula db)) as [|d [|? ?]] eqn:Ef; try discriminate Hh.
      injection Hh as <- <-. repeat split; auto.
      exists d. exact (filter_in_session _ _ _ _ Ef).
    - unfold professor.get_qr_code in Hh. rewrite select_run, scalar_run in Hh.
      destruct (filter _ (dia_de_aula db)) as [|d [|? ?]] eqn:Ef; try discriminate Hh.
      injection Hh as <- <-. repeat split; auto.
      exists d. exact (filter_in_session _ _ _ _ Ef).
    - unfold classes.generate_qrcode, classes.owner_check in Hh.
      unfold bind at 1 in Hh. rewrite select_run, scalar_run in Hh.
      destruct (filter _ (integrante_da_turma db)) as [|i [|? ?]];
        try discriminate Hh.
      unfold ret in Hh. rewrite select_run, scalar_run in Hh.
      destruct (filter _ (dia_de_aula db)) as [|d [|? ?]] eqn:Ef; try discriminate Hh.
      injection Hh as <- <-. repeat split; auto.
      exists d. exact (filter_in_session _ _ _ _ Ef). }
  destruct Hcore as (H1 & H2 & H3). repeat split; auto.
  intros Hp. rewrite H2. simpl QRCodeResponse.qr_data.
  apply parse_qr_string; [exact Hp | reflexivity].
Qed.

Lemma qr_endpoints_token_witness :
  parse_qr_data
    (qr_string
       (QRCodeResponse.qr_data
          (QRCodeResponse.make (QRCodeData.make "S1" 1000 "marcar_presenca")
             (Some "data:image/png;base64,S1|1000|marcar_presenca"))))
  = inr (QRCodeData.make "S1" 1000 "marcar_presenca").
Proof.
  apply (qr_endpoints_token Scenario.render "C1"
           (QRCodeData.make "S1" 0 "x") Scenario.P1 (mkEnv "r0" 1000)
           (classes.generate_qrcode Scenario.render "C1" "S1" Scenario.P1
              (mkEnv "r0" 1000))
           Scenario.db0 _ Scenario.db0).
  - right; right; left; reflexivity.
  - reflexivity.
  - reflexivity.
Defined.

Lemma filter_pkey_and (g : DiaDeAula.t -> bool) rows dia_aula_id :
  NoDup (map DiaDeAula.id rows) ->
  filter (fun d => String.eqb (DiaDeAula.id d) dia_aula_id && g d)%bool rows
  = match find (fun d => String.eqb (DiaDeAula.id d) dia_aula_id) rows with
    | Some d => if g d then [d] else []
    | None => []
    end.
Proof.
  induction rows as [|d l IH]; simpl; [reflexivity|].
  intros Hnd. apply NoDup_cons_iff in Hnd as [Hn Hnd].
  destruct (String.eqb (DiaDeAula.id d) dia_aula_id) eqn:Ei; simpl.
  - apply String.eqb_eq in Ei.
    assert (Hl : filter (fun d => String.eqb (DiaDeAula.id d) dia_aula_id && g d)%bool l
                 = []).
    { apply filter_none. intros a Ha. apply andb_false_iff; left.
      apply String.eqb_neq. intros E. apply Hn. rewrite Ei, <- E.
      apply in_map; exact Ha. }
    rewrite Hl. destruct (g d); reflexivity.
  - apply IH, Hnd.
Qed.

(** X13. The class-scoped QR endpoint checks ownership of the class
    first and the session second: a professor who does not own the
    class gets 403 whether or not the session exists; an owner gets 404
    "Class day not found" when there is no such session or it belongs
    to another class; otherwise the token of the session is returned. *)
Theorem classes_generate_qrcode_order render class_id day_id professor env db :
  Db_ok db -> Schema_ok db ->
  classes.generate_qrcode render class_id day_id professor env db
  = if negb (owns_class db class_id (Professor.id professor)) then
      (inl (HTTPException 403 "You do not own this class"), db)
    else
      match session db day_id with
      | Some d =>
          if String.eqb (DiaDeAula.turma_id d) class_id then
            (inr (QRCodeResponse.make
                    (QRCodeData.make day_id (now env) "marcar_presenca")
                    (Some ("data:image/png;base64,"
                           ++ render (mint day_id (now env))))), db)
          else (inl (HTTPException 404 "Class day not found"), db)
      | None => (inl (HTTPException 404 "Class day not found"), db)
      end.
Proof.
  intros [Hd _ _ _] Hsc. unfold classes.generate_qrcode.
  rewrite (owner_check_run _ _ _ _ Hsc).
  destruct (owns_class db class_id (Professor.id professor)); [|reflexivity].
  simpl negb. cbv iota. rewrite select_run, scalar_run.
  rewrite (filter_pkey_and (fun d => String.eqb (DiaDeAula.turma_id d) class_id)
             _ _ Hd).
  unfold session. destruct (find _ (dia_de_aula db)) as [d|]; [|reflexivity].
  destruct (String.eqb (DiaDeAula.turma_id d) class_id); reflexivity.
Qed.

Lemma classes_generate_qrcode_order_witness :
  classes.generate_qrcode Scenario.render "C1" "nope" Scenario.P2
    (mkEnv "r0" 1000) Scenario.db0
  = (inl (HTTPException 403 "You do not own this class"), Scenario.db0).
Proof.
  rewrite (classes_generate_qrcode_order Scenario.render "C1" "nope" Scenario.P2
             (mkEnv "r0" 1000) Scenario.db0); [reflexivity | db_ok | db_ok].
Defined.

(** X14. From the QR code to the record: on a database that satisfies
    its constraints, when [generate_qrcode] answers the owner of a
    session whose identifier holds no [|], the string of the QR code
    decodes, and the decoded fields posted to [scan_qrcode] by a
    student enrolled in the class of the session, without a record for
    it and with an unused record identifier, are accepted at any later
    time and stored with the time of the scan. *)
Theorem token_to_record render data professor env db resp student scan_env dia_aula :
  Db_ok db ->
  qrcode.generate_qrcode render data professor env db = (inr resp, db) ->
  no_pipe (QRCodeData.dia_aula_id data) = true ->
  session db (QRCodeData.dia_aula_id data) = Some dia_aula ->
  enrolled_as_student db (DiaDeAula.turma_id dia_aula) (Aluno.id student) = true ->
  records_of db (Aluno.id student) (QRCodeData.dia_aula_id data) = [] ->
  ~ In (uuid4 scan_env) (map Presenca.id (presenca db)) ->
  exists body,
    parse_qr_data (qr_string (QRCodeResponse.qr_data resp)) = inr body
    /\ QRCodeData.timestamp body = now env
    /\ qrcode.scan_qrcode (AttendanceRequest.of_body body) student scan_env db
       = (inr (AttendanceResponse.make (uuid4 scan_env) (Aluno.id student)
                 (QRCodeData.dia_aula_id data) (now scan_env) None None),
          with_presenca db
            (presenca db
             ++ [Presenca.make (uuid4 scan_env) (Aluno.id student)
                   (QRCodeData.dia_aula_id data) (now scan_env)])).
Proof.
  intros Hok Hg Hp Hs He Hn Hx.
  unfold qrcode.generate_qrcode in Hg. rewrite select_run, scalar_run in Hg.
  destruct (filter _ (dia_de_aula db)) as [|d [|? ?]]; try discriminate Hg.
  injection Hg as <-. simpl QRCodeResponse.qr_data.
  exists (QRCodeData.make (QRCodeData.dia_aula_id data) (now env) "marcar_presenca").
  split; [apply parse_qr_string; [exact Hp | reflexivity]|].
  split; [reflexivity|].
  unfold qrcode.scan_qrcode. rewrite (mark_attendance_eq _ _ _ _ Hok).
  unfold AttendanceRequest.of_body; simpl.
  rewrite Hs, He, Hn. simpl.
  destruct (existsb (fun q => String.eqb (Presenca.id q) (uuid4 scan_env)) (presenca db))
    eqn:Eu; [|reflexivity].
  exfalso; apply Hx. apply existsb_exists in Eu as (q & Hq & Hid).
  apply String.eqb_eq in Hid. apply in_map_iff; exists q; auto.
Qed.

Lemma token_to_record_witness :
  exists body,
    parse_qr_data (qr_string (QRCodeData.make "S1" 1000 "marcar_presenca"))
    = inr body
    /\ QRCodeData.timestamp body = 1000
    /\ qrcode.scan_qrcode (AttendanceRequest.of_body body) Scenario.U1
         (mkEnv "r1" 9999) Scenario.db0
       = (inr (AttendanceResponse.make "r1" "U1" "S1" 9999 None None),
          with_presenca Scenario.db0 [Presenca.make "r1" "U1" "S1" 9999]).
Proof.
  apply (token_to_record Scenario.render (QRCodeData.make "S1" 0 "x") Scenario.P1
           (mkEnv "r0" 1000) Scenario.db0
           (QRCodeResponse.make (QRCodeData.make "S1" 1000 "marcar_presenca")
              (Some "data:image/png;base64,S1|1000|marcar_presenca"))
           Scenario.U1 (mkEnv "r1" 9999)
           (DiaDeAula.make "S1" "C1" 900 false "P1"));
    try reflexivity.
  - db_ok.
  - simpl; tauto.
Defined.

(** ** Finishing a session *)

Lemma finished_fields x d :
  DiaDeAula.id (finished x d) = DiaDeAula.id d
  /\ DiaDeAula.turma_id (finished x d) = DiaDeAula.turma_id d
  /\ DiaDeAula.professor_id (finished x d) = DiaDeAula.professor_id d.
Proof. unfold finished; destruct (String.eqb _ _); repeat split; reflexivity. Qed.

Lemma finished_idem x d : finished x (finished x d) = finished x d.
Proof.
  unfold finished. destruct (String.eqb (DiaDeAula.id d) x) eqn:E; simpl; rewrite E;
    reflexivity.
Qed.

Lemma filter_map_finished (p : DiaDeAula.t -> bool) x rows :
  (forall d, p (finished x d) = p d) ->
  filter p (map (finished x) rows) = map (finished x) (filter p rows).
Proof.
  intros Hp. induction rows as [|d l IH]; simpl; [reflexivity|].
  rewrite Hp. destruct (p d); simpl; rewrite IH; reflexivity.
Qed.

Lemma mark_attendance_finished data student env db x :
  attendance.mark_attendance data student env
    (with_dia_de_aula db (map (finished x) (dia_de_aula db)))
  = (fst (attendance.mark_attendance data student env db),
     with_dia_de_aula (snd (attendance.mark_attendance data student env db))
       (map (finished x)
          (dia_de_aula (snd (attendance.mark_attendance data student env db))))).
Proof.
  unfold attendance.mark_attendance.
  destruct (negb _); [reflexivity|].
  rewrite !select_run, !scalar_run. simpl dia_de_aula.
  rewrite filter_map_finished
    by (intros d; destruct (finished_fields x d) as (-> & _); reflexivity).
  destruct (filter _ (dia_de_aula db)) as [|dia [|? ?]]; try reflexivity.
  simpl map. destruct (finished_fields x dia) as (_ & -> & _).
  rewrite !select_run, !scalar_run. simpl integrante_da_turma.
  destruct (filter _ (integrante_da_turma db)) as [|i [|? ?]]; try reflexivity.
  rewrite !select_run, !scalar_run. simpl presenca.
  destruct (filter _ (presenca db)) as [|p [|? ?]]; try reflexivity.
  unfold bind, add_commit, ret. simpl presenca.
  destruct (_ || _)%bool; reflexivity.
Qed.

(** X15. Finishing a session does not close its attendance.  A
    successful [finish_aula] sets [aula_foi_dada] on the row of that
    session and changes nothing else; every mark-attendance call gets
    afterwards the answer it would have got before; and finishing the
    same session again succeeds and leaves the database as it is. *)
Theorem finish_aula_keeps_attendance_open dia_aula_id professor db m db' :
  professor.finish_aula dia_aula_id professor db = (inr m, db') ->
  db' = with_dia_de_aula db (map (finished dia_aula_id) (dia_de_aula db))
  /\ (forall d, In d (dia_de_aula db') -> DiaDeAula.id d = dia_aula_id ->
                DiaDeAula.aula_foi_dada d = true)
  /\ (forall data student env,
        fst (attendance.mark_attendance data student env db')
        = fst (attendance.mark_attendance data student env db))
  /\ professor.finish_aula dia_aula_id professor db' = (inr m, db').
Proof.
  intros Hf. unfold professor.finish_aula in Hf.
  rewrite select_run, scalar_run in Hf.
  destruct (filter _ (dia_de_aula db)) as [|d [|? ?]] eqn:Ef; try discriminate Hf.
  destruct (filter_in_session _ _ _ _ Ef) as [Hin Hid].
  unfold bind, set_aula_foi_dada, ret in Hf. rewrite Hid in Hf.
  injection Hf as <- <-.
  fold (finished dia_aula_id).
  change (mkDb (turma db) (map (finished dia_aula_id) (dia_de_aula db))
            (integrante_da_turma db) (presenca db))
    with (with_dia_de_aula db (map (finished dia_aula_id) (dia_de_aula db))).
  split; [reflexivity|]. split; [|split].
  - simpl. intros r Hr Hrid. apply in_map_iff in Hr as (r0 & <- & _).
    destruct (finished_fields dia_aula_id r0) as (Hi & _). rewrite Hi in Hrid.
    unfold finished. apply String.eqb_eq in Hrid. rewrite Hrid. reflexivity.
  - intros data student env. rewrite mark_attendance_finished. reflexivity.
  - unfold professor.finish_aula. rewrite select_run, scalar_run. simpl dia_de_aula.
    rewrite filter_map_finished.
    2:{ intros r. destruct (finished_fields dia_aula_id r) as (-> & _ & ->).
        reflexivity. }
    rewrite Ef. simpl map.
    unfold bind, set_aula_foi_dada, ret. simpl.
    destruct (finished_fields dia_aula_id d) as (-> & _). rewrite Hid.
    fold (finished dia_aula_id). rewrite map_map.
    f_equal. unfold with_dia_de_aula; simpl. f_equal.
    apply map_ext. intros r. apply finished_idem.
Qed.

Lemma finish_aula_keeps_attendance_open_witness :
  fst (attendance.mark_attendance Scenario.scan_S1 Scenario.U1 (mkEnv "r1" 1500)
         (snd (professor.finish_aula "S1" Scenario.P1 Scenario.db0)))
  = fst (attendance.mark_attendance Scenario.scan_S1 Scenario.U1 (mkEnv "r1" 1500)
           Scenario.db0).
Proof.
  destruct (finish_aula_keeps_attendance_open "S1" Scenario.P1 Scenario.db0
              (SuccessResponse.make "Class session marked as completed"
                 (Some [("dia_aula_id", SuccessResponse.Str "S1")]))
              (snd (professor.finish_aula "S1" Scenario.P1 Scenario.db0))
              eq_refl) as (_ & _ & H & _).
  apply H.
Defined.

(** ** The attendance list of a session *)

Lemma students_of_eq aluno_table presencas db :
  NoDup (map Aluno.id aluno_table) ->
  attendance.students_of aluno_table presencas db
  = (inr (flat_map (fun p => match student_of aluno_table p with
                             | Some a => [StudentInfo.from_orm a]
                             | None => []
                             end) presencas), db).
Proof.
  intros Hnd. induction presencas as [|p l IH]; [reflexivity|].
  simpl attendance.students_of. unfold bind at 1.
  rewrite (scalar_one_or_none_unique (fun a => Some (Aluno.id a)) _
             (Presenca.aluno_id p)).
  2:{ intros r Hr; apply String.eqb_eq in Hr; rewrite Hr; reflexivity. }
  2:{ rewrite keys_total; exact Hnd. }
  unfold bind. rewrite IH. unfold ret, student_of. simpl.
  destruct (find _ aluno_table); reflexivity.
Qed.

Lemma student_of_id aluno_table p a :
  student_of aluno_table p = Some a ->
  Aluno.id a = Presenca.aluno_id p /\ In a aluno_table.
Proof.
  unfold student_of. intros H. apply find_some in H as [Hin Hid].
  apply String.eqb_eq in Hid. split; assumption.
Qed.

Lemma session_students_nodup db day_id :
  Db_ok db -> NoDup (map Presenca.aluno_id (records_of_session db day_id)).
Proof.
  intros [_ _ _ Hu]. unfold records_of_session.
  induction (presenca db) as [|p l IH]; simpl; [constructor|].
  simpl in Hu. apply NoDup_cons_iff in Hu as [Hp Hu]. specialize (IH Hu).
  destruct (String.eqb (Presenca.dia_aula_id p) day_id) eqn:Ed; [|exact IH].
  simpl. constructor; [|exact IH].
  intros Hin. apply in_map_iff in Hin as (q & Hq & Hin).
  apply filter_In in Hin as [Hin Hqd]. apply Hp.
  apply String.eqb_eq in Ed, Hqd.
  apply in_map_iff. exists q. split; [|exact Hin]. congruence.
Qed.

(** X16. On a database that satisfies its constraints, with unique
    student identifiers, [get_attendance_list] answers without raising
    or writing and lists each present student once: a student is in
    the list exactly when the [aluno] table has them and they have a
    record for the session, no identifier appears twice, and the list
    is no longer than the number of records of the session. *)
Theorem get_attendance_list_once aluno_table day_id db :
  Db_ok db -> NoDup (map Aluno.id aluno_table) ->
  exists students,
    attendance.get_attendance_list aluno_table day_id db = (inr students, db)
    /\ NoDup (map StudentInfo.id students)
    /\ (List.length students <= List.length (records_of_session db day_id))%nat
    /\ (forall aluno_id,
          In aluno_id (map StudentInfo.id students)
          <-> In aluno_id (map Aluno.id aluno_table)
              /\ records_of db aluno_id day_id <> []).
Proof.
  intros Hok Hnd.
  unfold attendance.get_attendance_list. rewrite select_run.
  fold (records_of_session db day_id).
  rewrite (students_of_eq _ _ _ Hnd).
  eexists; split; [reflexivity|].
  pose proof (session_students_nodup db day_id Hok) as Hs.
  assert (Hrec : forall p, In p (records_of_session db day_id) ->
                           In p (presenca db) /\ Presenca.dia_aula_id p = day_id).
  { intros p Hp. apply filter_In in Hp as [Hin Hd].
    apply String.eqb_eq in Hd. split; assumption. }
  assert (Hall : forall p, In p (presenca db) -> Presenca.dia_aula_id p = day_id ->
                           In p (records_of_session db day_id)).
  { intros p Hin Hd. apply filter_In. split; [exact Hin|].
    apply String.eqb_eq; exact Hd. }
  split; [|split].
  - clear Hrec Hall. induction (records_of_session db day_id) as [|p l IH];
      simpl; [constructor|].
    simpl in Hs. apply NoDup_cons_iff in Hs as [Hp Hs]. specialize (IH Hs).
    destruct (student_of aluno_table p) as [a|] eqn:Ea; [|exact IH].
    simpl. constructor; [|exact IH].
    destruct (student_of_id _ _ _ Ea) as [Hid _]. rewrite Hid.
    intros Hin. apply Hp. apply in_map_iff in Hin as (s & Hsid & Hin).
    apply in_flat_map in Hin as (q & Hq & Hsq).
    destruct (student_of aluno_table q) as [b|] eqn:Eb; [|destruct Hsq].
    destruct Hsq as [<-|[]]. destruct (student_of_id _ _ _ Eb) as [Hb _].
    simpl in Hsid. apply in_map_iff. exists q. split; [congruence | exact Hq].
  - clear. induction (records_of_session db day_id) as [|p l IH]; simpl; [lia|].
    rewrite length_app. destruct (student_of aluno_table p); simpl; lia.
  - intros sid. split.
    + intros Hin. apply in_map_iff in Hin as (s & Hsid & Hin).
      apply in_flat_map in Hin as (q & Hq & Hsq).
      destruct (student_of aluno_table q) as [b|] eqn:Eb; [|destruct Hsq].
      destruct Hsq as [<-|[]]. destruct (student_of_id _ _ _ Eb) as [Hb Hbin].
      simpl in Hsid. destruct (Hrec q Hq) as [Hqin Hqd]. split.
      * rewrite <- Hsid. apply in_map; exact Hbin.
      * intros Hnil.
        assert (In q (records_of db sid day_id)) as Hq'.
        { apply filter_In. split; [exact Hqin|].
          apply same_aluno_dia_aula_iff. split; congruence. }
        rewrite Hnil in Hq'; exact Hq'.
    + intros [Htbl Hne].
      destruct (records_of db sid day_id) as [|q l] eqn:Er; [congruence|].
      assert (In q (records_of db sid day_id)) as Hq by (rewrite Er; left; reflexivity).
      apply filter_In in Hq as [Hqin Hqs].
      apply same_aluno_dia_aula_iff in Hqs as [Hqa Hqd].
      apply in_map_iff in Htbl as (a & Ha & Hain).
      destruct (student_of aluno_table q) as [b|] eqn:Eb.
      * destruct (student_of_id _ _ _ Eb) as [Hb _].
        apply in_map_iff. exists (StudentInfo.from_orm b). split; [simpl; congruence|].
        apply in_flat_map. exists q. split; [apply Hall; assumption|].
        rewrite Eb; left; reflexivity.
      * exfalso. unfold student_of in Eb.
        pose proof (find_none _ _ Eb a Hain) as Hf. simpl in Hf.
        apply String.eqb_neq in Hf. congruence.
Qed.

Lemma get_attendance_list_once_witness :
  exists students,
    attendance.get_attendance_list [Scenario.U1; Scenario.U2] "S1"
      (exec [Calls.first_scan; Calls.second_scan] Scenario.db0)
    = (inr students, exec [Calls.first_scan; Calls.second_scan] Scenario.db0)
    /\ NoDup (map StudentInfo.id students).
Proof.
  destruct (get_attendance_list_once [Scenario.U1; Scenario.U2] "S1"
              (exec [Calls.first_scan; Calls.second_scan] Scenario.db0))
    as (students & H1 & H2 & _).
  - db_ok.
  - repeat constructor; simpl; intuition discriminate.
  - exists students. split; assumption.
Defined.

(** ** Joining and being removed *)

Lemma Db_eta db :
  mkDb (turma db) (dia_de_aula db) (integrante_da_turma db) (presenca db) = db.
Proof. destruct db; reflexivity. Qed.

(** X17. Join and removal undo each other: on a database that
    satisfies its constraints, when a student has joined a class and
    the owner then removes them, the database is exactly what it was
    before the student joined. *)
Theorem join_then_remove turma_id student new_id professor db r db1 m db2 :
  Db_ok db -> Schema_ok db ->
  student.join_turma turma_id student new_id db = (inr r, db1) ->
  classes.remove_student_from_class turma_id (Aluno.id student) professor db1
  = (inr m, db2) ->
  db2 = db.
Proof.
  intros Hok Hsc Hj Hr.
  rewrite (join_turma_eq _ _ _ _ Hok Hsc) in Hj.
  destruct (find _ (turma db)) as [t|] eqn:Ef; [|discriminate Hj].
  destruct (enrolled_as_student db turma_id (Aluno.id student)) eqn:Ee;
    [discriminate Hj|].
  destruct (existsb _ (integrante_da_turma db)) eqn:Ex; [discriminate Hj|].
  injection Hj as _ <-.
  destruct (join_turma_ok turma_id (Aluno.id student) new_id db Hok Hsc Ee Ex)
    as [Hok1 Hsc1].
  set (new := new_enrollment turma_id (Aluno.id student) new_id) in *.
  unfold classes.remove_student_from_class in Hr.
  rewrite (owner_check_run _ _ _ _ Hsc1) in Hr.
  destruct (owns_class _ turma_id (Professor.id professor)); [|discriminate Hr].
  change (fun i : IntegranteDaTurma.t =>
            (String.eqb (IntegranteDaTurma.turma_id i) turma_id
             && col_eq (IntegranteDaTurma.aluno_id i) (Aluno.id student)
             && String.eqb (IntegranteDaTurma.tipo i) "aluno")%bool)
    with (is_enrollment turma_id (Aluno.id student)) in Hr.
  destruct Hok1 as [_ Hi1 _ _].
  rewrite (select_scalar_unique integrante_da_turma
             (fun i => option_map (pair (IntegranteDaTurma.turma_id i))
                         (IntegranteDaTurma.aluno_id i))
             _ (turma_id, Aluno.id student) _ _ (is_enrollment_key _ _) Hi1) in Hr.
  change (integrante_da_turma (with_integrante db (integrante_da_turma db ++ [new])))
    with (integrante_da_turma db ++ [new])%list in Hr.
  assert (Hfind : find (is_enrollment turma_id (Aluno.id student))
                    (integrante_da_turma db ++ [new]) = Some new).
  { rewrite enrolled_is_enrollment in Ee. clear - Ee.
    induction (integrante_da_turma db) as [|x l IH]; simpl in *.
    - unfold is_enrollment; simpl. rewrite !String.eqb_refl. reflexivity.
    - apply orb_false_iff in Ee as [Hx Hl]. rewrite Hx. apply IH, Hl. }
  rewrite Hfind in Hr.
  unfold bind, delete_commit_integrante, ret in Hr. simpl in Hr.
  injection Hr as _ <-.
  rewrite filter_app. simpl. rewrite Z.eqb_refl. simpl. rewrite app_nil_r.
  replace (filter _ (integrante_da_turma db)) with (integrante_da_turma db);
    [apply Db_eta|].
  clear - Ex. induction (integrante_da_turma db) as [|x l IH]; simpl in *;
    [reflexivity|].
  apply orb_false_iff in Ex as [Hx Hl]. rewrite Hx. simpl. f_equal. apply IH, Hl.
Qed.

Lemma join_then_remove_witness :
  snd (classes.remove_student_from_class "C1" "U2" Scenario.P1
         (snd (student.join_turma "C1" Scenario.U2 3 Scenario.db0)))
  = Scenario.db0.
Proof.
  apply (join_then_remove "C1" Scenario.U2 3 Scenario.P1 Scenario.db0
           (SuccessResponse.make "Successfully joined the class"
              (Some [("turma_id", SuccessResponse.Str "C1");
                     ("turma_nome", SuccessResponse.Str "BD-2024-1")]))
           (snd (student.join_turma "C1" Scenario.U2 3 Scenario.db0))
           "Student removed from class");
    try reflexivity; db_ok.
Defined.
